(** * kueue-metrics: PipelineRun status metrics

    A shallow embedding of the two Go programs of the repository:

    - [PipelineRun_exporter.go], the pull-mode Prometheus collector
      ([getPipelineRunStatus], [getBuildPlatformLabel], [Collect],
      [Describe], [NewPipelineRunCollector], [KubeConfig]);
    - [pipelinerun_metrics_controller.go], the reactive controller
      ([Reconcile]).

    Go packages become modules ([apis], [metav1], [v1], [prometheus],
    [errors], [ctrl]); Go structs become records; the channel a collector
    writes to and the logger become fields of an explicit world that is
    threaded through a small state monad.  Module [golang] embeds the two
    helpers once more on pointers, where Go can panic. *)

From Stdlib Require Import String List ZArith Bool PrimFloat.
From stdpp Require Import base option list strings gmap.


(** ** A state monad for the effects of the Go code *)

Definition State (S A : Type) : Type := S -> A * S.

#[global] Instance state_ret {S} : MRet (State S) :=
  fun A (a : A) s => (a, s).

#[global] Instance state_bind {S} : MBind (State S) :=
  fun A B (k : A -> State S B) (m : State S A) s => let (a, s') := m s in k a s'.

Definition modify {S} (f : S -> S) : State S unit := fun s => (tt, f s).

Definition exec {S A} (m : State S A) (s : S) : S := snd (m s).

(** [for _, x := range xs { body x }] *)
Fixpoint forRange {S A} (xs : list A) (body : A -> State S unit) : State S unit :=
  match xs with
  | [] => mret tt
  | x :: xs' => body x ;; forRange xs' body
  end.

(** ** k8s.io/apimachinery/pkg/api/errors *)

Module errors.

(** The reason of an API status error, as far as the programs look at it. *)
Inductive StatusReason : Type :=
  | StatusReasonNotFound
  | StatusReasonTimeout
  | StatusReasonInternalError
  | StatusReasonUnknown.

(** A Go [error] returned by a client call. *)
Record error : Type := {
  Reason : StatusReason;
  Message : string
}.

Definition IsNotFound (err : error) : bool :=
  match Reason err with
  | StatusReasonNotFound => true
  | _ => false
  end.

End errors.

(** ** Package log, and the logger of controller-runtime *)

Module log.

(** The arguments of a format string or the key/value pairs of [Info]. *)
Inductive Arg : Type :=
  | Str (s : string)
  | Int (n : nat)
  | Err (e : errors.error).

(** One call of the logger: its format or message, and its arguments. *)
Record Line : Type := {
  format : string;
  args : list Arg
}.

(** A state [S] together with what has been logged so far. *)
Record Logged (S : Type) : Type := {
  state : S;
  lines : list Line
}.

Arguments state {S} _.
Arguments lines {S} _.

Definition write {S} (l : Line) : State (Logged S) unit :=
  modify (fun w => {| state := state w; lines := lines w ++ [l] |}).

Definition Println {S} (msg : string) : State (Logged S) unit :=
  write {| format := msg; args := [] |}.

Definition Printf {S} (fmt : string) (a : list Arg) : State (Logged S) unit :=
  write {| format := fmt; args := a |}.

Definition Info {S} (msg : string) (keysAndValues : list Arg) : State (Logged S) unit :=
  write {| format := msg; args := keysAndValues |}.

(** Run a computation on the state, leaving the log alone. *)
Definition lift {S A} (m : State S A) : State (Logged S) A :=
  fun w => let (a, s') := m (state w) in (a, {| state := s'; lines := lines w |}).

End log.

(** ** knative.dev/pkg/apis *)

Module apis.

(** [corev1.ConditionStatus]: the tri-state of a condition. *)
Inductive ConditionStatus : Type :=
  | ConditionTrue
  | ConditionFalse
  | ConditionUnknown.

(** [apis.Condition]; the Go field [Type] is spelled [Type_]. *)
Record Condition : Type := {
  Type_ : string;
  Status : ConditionStatus;
  Reason : string
}.

End apis.

(** ** k8s.io/apimachinery/pkg/apis/meta/v1 *)

Module metav1.

(** A [metav1.Time], as nanoseconds since the zero instant of [time.Time]. *)
Definition Time : Type := Z.

Record ObjectMeta : Type := {
  Namespace : string;
  Name : string;
  DeletionTimestamp : option Time
}.

(** [func (t *Time) IsZero() bool]: a nil pointer or the zero instant. *)
Definition IsZero (t : option Time) : bool :=
  match t with
  | None => true
  | Some i => Z.eqb i 0
  end.

End metav1.

(** [types.NamespacedName], the key of a reconcile request. *)
Record NamespacedName : Type := {
  nnNamespace : string;
  nnName : string
}.

(** ** github.com/tektoncd/pipeline/pkg/apis/pipeline/v1 *)

Module v1.

(** [ParamValue]: a string, or an array of strings, tagged by [Type]. *)
Inductive ParamType : Type :=
  | ParamTypeString
  | ParamTypeArray
  | ParamTypeObject.

Record ParamValue : Type := {
  Type_ : ParamType;
  StringVal : string;
  ArrayVal : list string
}.

Record Param : Type := {
  Name : string;
  Value : ParamValue
}.

(** [PipelineRunSpec]; the Go field [Spec.Status] is spelled [SpecStatus]. *)
Record PipelineRunSpec : Type := {
  Params : list Param;
  SpecStatus : string
}.

Record PipelineRunStatus : Type := {
  Conditions : list apis.Condition
}.

Record PipelineRun : Type := {
  ObjectMeta : metav1.ObjectMeta;
  Spec : PipelineRunSpec;
  Status : PipelineRunStatus
}.

Record PipelineRunList : Type := {
  Items : list PipelineRun
}.

(** The names of the Tekton package that the exporter refers to but that
    are declared outside this repository: two constants and the method
    [IsPending] of a PipelineRun.  The exporter is embedded over any value
    of them. *)
Class Package : Type := {
  PipelineRunReasonSucceeded : string;
  PipelineRunReasonPending : string;
  IsPending : PipelineRun -> bool
}.

(** A string-valued and an array-valued parameter, as Tekton decodes them. *)
Definition NewStringValue (s : string) : ParamValue :=
  {| Type_ := ParamTypeString; StringVal := s; ArrayVal := [] |}.

Definition NewArrayValue (l : list string) : ParamValue :=
  {| Type_ := ParamTypeArray; StringVal := ""; ArrayVal := l |}.

End v1.

(** ** github.com/tektoncd/pipeline/pkg/client/clientset/versioned *)

Module tektonclientset.

(** [Interface]: a value stands for the API server as it answers at the
    time of the call.  [List ns] is
    [TektonV1().PipelineRuns(ns).List(ctx, metav1.ListOptions{})], with
    Go's two results. *)
Record Interface : Type := {
  List : string -> v1.PipelineRunList * option errors.error
}.

End tektonclientset.

(** The promoted fields [pr.Namespace] and [pr.Name]. *)
Definition Namespace (pr : v1.PipelineRun) : string :=
  metav1.Namespace (v1.ObjectMeta pr).

Definition Name (pr : v1.PipelineRun) : string :=
  metav1.Name (v1.ObjectMeta pr).

(** ** Package strings *)

Module strings.

(** [strings.Join(elems, sep)]: nothing for no element, otherwise the first
    element followed by [sep] and one element at a time, as the Go builder
    writes them. *)
Definition Join (elems : list string) (sep : string) : string :=
  match elems with
  | [] => ""
  | e0 :: rest => fold_left (fun b s => String.append (String.append b sep) s) rest e0
  end.

End strings.

(** ** github.com/prometheus/client_golang/prometheus *)

Module prometheus.

Record Desc : Type := {
  fqName : string;
  help : string;
  variableLabels : list string;
  constLabels : list (string * string)
}.

Definition NewDesc (fqName help : string) (variableLabels : list string)
    (constLabels : list (string * string)) : Desc :=
  {| fqName := fqName; help := help; variableLabels := variableLabels;
     constLabels := constLabels |}.

Inductive ValueType : Type :=
  | CounterValue
  | GaugeValue
  | UntypedValue.

(** A constant metric: what [MustNewConstMetric] builds from its arguments.
    The Go function panics when the number of label values differs from the
    number of variable labels of the description; [stateSet_arity] below
    shows that the rows of the collector have one value per label. *)
Record Metric : Type := {
  desc : Desc;
  valueType : ValueType;
  value : float;
  labelValues : list string
}.

Definition MustNewConstMetric (d : Desc) (t : ValueType) (v : float)
    (labelValues : list string) : Metric :=
  {| desc := d; valueType := t; value := v; labelValues := labelValues |}.

End prometheus.

(** ** PipelineRun_exporter.go *)

(** The world of a scrape: the channel [ch], as the metrics sent on it so
    far, and the log. *)
Abbreviation Scrape := (log.Logged (list prometheus.Metric)).

Section Exporter.

Context `{Tekton : v1.Package}.

(** A list of all known states to set inactive ones to 0. *)
Definition allPossibleStates : list string :=
  [ "Succeeded"; "Failed"; "Running"; "PipelineRunPending";
    "PipelineRunCancelled"; v1.PipelineRunReasonPending; "Unknown" ].

(** The loop of [getPipelineRunStatus]: the reason of the first condition
    whose type is [v1.PipelineRunReasonSucceeded], if the loop returns. *)
Fixpoint conditionsLoop (cs : list apis.Condition) : option string :=
  match cs with
  | [] => None
  | c :: cs' =>
      if String.eqb (apis.Type_ c) v1.PipelineRunReasonSucceeded
      then Some (apis.Reason c)
      else conditionsLoop cs'
  end.

Definition getPipelineRunStatus (pr : v1.PipelineRun) : string :=
  let conditions := v1.Conditions (v1.Status pr) in
  match (if Nat.ltb 0 (length conditions) then conditionsLoop conditions else None) with
  | Some reason => reason
  | None =>
      if v1.IsPending pr then v1.PipelineRunReasonPending else "Unknown"
  end.

Fixpoint paramsLoop (params : list v1.Param) : option string :=
  match params with
  | [] => None
  | param :: params' =>
      if String.eqb (v1.Name param) "build-platforms"
      then Some (strings.Join (v1.ArrayVal (v1.Value param)) ",")
      else paramsLoop params'
  end.

Definition getBuildPlatformLabel (pr : v1.PipelineRun) : string :=
  match paramsLoop (v1.Params (v1.Spec pr)) with
  | Some label => label
  | None => ""
  end.

(** [PipelineRunCollector] implements the [prometheus.Collector] interface. *)
Record PipelineRunCollector : Type := {
  tektonClient : tektonclientset.Interface;
  prStatusDesc : prometheus.Desc
}.

Definition NewPipelineRunCollector (client : tektonclientset.Interface)
    : PipelineRunCollector :=
  {| tektonClient := client;
     prStatusDesc :=
       prometheus.NewDesc
         "tekton_kueue_pipelinerun_status"
         "The status of a PipelineRun, labeled by namespace, name, status, and build platform."
         [ "namespace"; "name"; "status"; "build_platform" ]
         [] |}.

(** [ch <- m] *)
Definition send (m : prometheus.Metric) : State Scrape unit :=
  log.lift (modify (fun ch => ch ++ [m])).

Definition Collect (c : PipelineRunCollector) : State Scrape unit :=
  log.Println "Collecting metrics from Kubernetes API..." ;;
  let (prList, err) := tektonclientset.List (tektonClient c) "" in
  match err with
  | Some e =>
      log.Printf "Error listing PipelineRuns: %v" [log.Err e]
      (* return *)
  | None =>
      forRange (v1.Items prList) (fun pr =>
        let currentStatus := getPipelineRunStatus pr in
        let platformLabel := getBuildPlatformLabel pr in
        forRange allPossibleStates (fun state =>
          let value := if String.eqb state currentStatus then 1%float else 0%float in
          send (prometheus.MustNewConstMetric
                  (prStatusDesc c) prometheus.GaugeValue value
                  [ Namespace pr; Name pr; state; platformLabel ]))) ;;
      log.Printf "Collected metrics for %d PipelineRuns."
        [log.Int (length (v1.Items prList))]
  end.

(** The identity of an entity: the sole key of its rows and records. *)
Definition identity (pr : v1.PipelineRun) : string * string :=
  (Namespace pr, Name pr).

(** The state set of one entity: the rows that one iteration of the outer
    loop of [Collect] sends, one per known state. *)
Definition stateSet (c : PipelineRunCollector) (pr : v1.PipelineRun)
    : list prometheus.Metric :=
  map (fun state =>
         prometheus.MustNewConstMetric
           (prStatusDesc c) prometheus.GaugeValue
           (if String.eqb state (getPipelineRunStatus pr) then 1%float else 0%float)
           [ Namespace pr; Name pr; state; getBuildPlatformLabel pr ])
      allPossibleStates.

End Exporter.

(** ** The two helpers on pointers, with Go's panics

    [Collect] hands both helpers a pointer, [&pr].  Here a pointer is nil
    or an address of the process memory, a field read through it panics on
    nil, an element read from a slice panics out of range, and a call runs
    in the whole process: memory, channel and log. *)

Module golang.

Inductive Outcome (A : Type) : Type :=
  | Returned (a : A)
  | Panicked (msg : string).

Arguments Returned {A} _.
Arguments Panicked {A} _.

(** A Go computation: it returns or panics, and leaves a world behind. *)
Definition Go (W A : Type) : Type := W -> Outcome A * W.

#[global] Instance go_ret {W} : MRet (Go W) :=
  fun A (a : A) w => (Returned a, w).

#[global] Instance go_bind {W} : MBind (Go W) :=
  fun A B (k : A -> Go W B) (m : Go W A) w =>
    match m w with
    | (Returned a, w') => k a w'
    | (Panicked msg, w') => (Panicked msg, w')
    end.

Definition panic {W A} (msg : string) : Go W A := fun w => (Panicked msg, w).

(** [xs[i]] *)
Definition index {W A} (xs : list A) (i : nat) : Go W A :=
  match xs !! i with
  | Some x => mret x
  | None => panic "index out of range"
  end.

(** [for _, x := range xs { body }], element by element from index [i] for
    [n] more rounds; the body answers [Some b] for [return b]. *)
Fixpoint rangeFrom {W A B} (xs : list A) (n i : nat) (body : A -> Go W (option B))
    : Go W (option B) :=
  match n with
  | O => mret None
  | S n' =>
      x ← index xs i;
      returned ← body x;
      match returned with
      | Some b => mret (Some b)
      | None => rangeFrom xs n' (S i) body
      end
  end.

Definition range {W A B} (xs : list A) (body : A -> Go W (option B))
    : Go W (option B) :=
  rangeFrom xs (length xs) 0 body.

(** The process: the PipelineRun objects in memory, by address, and the
    channel and log of the scrape. *)
Record Process : Type := {
  heap : gmap nat v1.PipelineRun;
  output : Scrape
}.

(** A pointer to a PipelineRun: nil, or an address. *)
Definition Pointer : Type := option nat.

(** Reading through a pointer. *)
Definition deref (p : Pointer) : Go Process v1.PipelineRun :=
  fun w =>
    match p with
    | None => (Panicked "invalid memory address or nil pointer dereference", w)
    | Some a =>
        match heap w !! a with
        | Some pr => (Returned pr, w)
        | None => (Panicked "invalid memory address or nil pointer dereference", w)
        end
    end.

Section Helpers.

Context `{Tekton : v1.Package}.

Definition getPipelineRunStatus (pr : Pointer) : Go Process string :=
  obj ← deref pr;
  returned ←
    (if Nat.ltb 0 (length (v1.Conditions (v1.Status obj))) then
       obj ← deref pr;
       range (v1.Conditions (v1.Status obj)) (fun c =>
         if String.eqb (apis.Type_ c) v1.PipelineRunReasonSucceeded
         then mret (Some (apis.Reason c))
         else mret None)
     else mret None);
  match returned with
  | Some reason => mret reason
  | None =>
      obj ← deref pr;
      if v1.IsPending obj then mret v1.PipelineRunReasonPending else mret "Unknown"
  end.

Definition getBuildPlatformLabel (pr : Pointer) : Go Process string :=
  obj ← deref pr;
  returned ←
    range (v1.Params (v1.Spec obj)) (fun param =>
      if String.eqb (v1.Name param) "build-platforms"
      then mret (Some (strings.Join (v1.ArrayVal (v1.Value param)) ","))
      else mret None);
  match returned with
  | Some label => mret label
  | None => mret ""
  end.

(** Step 3 of [Collect]: the status and the label of one item. *)
Definition classify (pr : Pointer) : Go Process (string * string) :=
  currentStatus ← getPipelineRunStatus pr;
  platformLabel ← getBuildPlatformLabel pr;
  mret (currentStatus, platformLabel).

End Helpers.

End golang.

(** ** pipelinerun_metrics_controller.go *)

Module ctrl.

Record Request : Type := {
  NamespacedName : NamespacedName
}.

Record Result : Type := {
  Requeue : bool;
  RequeueAfter : Z
}.

(** [ctrl.Result{}] *)
Definition Result0 : Result := {| Requeue := false; RequeueAfter := 0 |}.

End ctrl.

Module client.

(** [client.Client], as far as the reconciler uses it: [Get key] is
    [Get(ctx, key, &pr)], giving the object read into [pr] and the error. *)
Record Client : Type := {
  Get : NamespacedName -> v1.PipelineRun * option errors.error
}.

End client.

Module cel.

(** The three entry points of package [cel] that the reconciler calls.
    They live in the tekton-kueue repository; the reconciler is embedded
    over any metric state [Store] that provides them. *)
Class Metrics (Store : Type) : Type := {
  DeletePipelineRunStatusMetricByNamespacedName : NamespacedName -> State Store unit;
  DeletePipelineRunStatusMetric : v1.PipelineRun -> State Store unit;
  UpdatePipelineRunStatusMetric : v1.PipelineRun -> State Store unit
}.

End cel.

Section Controller.

Context {Store : Type} `{Cel : cel.Metrics Store}.

(** [PipelineRunMetricsReconciler]: the embedded [client.Client]. *)
Record PipelineRunMetricsReconciler : Type := {
  Client : client.Client
}.

(** [Reconcile] is the main loop that updates metrics for PipelineRuns. *)
Definition Reconcile (r : PipelineRunMetricsReconciler) (req : ctrl.Request)
    : State (log.Logged Store) (ctrl.Result * option errors.error) :=
  (* 1. Fetch the PipelineRun object *)
  let (pr, err) := client.Get (Client r) (ctrl.NamespacedName req) in
  match err with
  | Some e =>
      if errors.IsNotFound e then
        log.Info "PipelineRun not found, deleting metrics"
          [log.Str "pipelinerun"; log.Str (nnNamespace (ctrl.NamespacedName req));
           log.Str (nnName (ctrl.NamespacedName req))] ;;
        log.lift (cel.DeletePipelineRunStatusMetricByNamespacedName
                    (ctrl.NamespacedName req)) ;;
        mret (ctrl.Result0, None)
      else
        mret (ctrl.Result0, Some e)
  | None =>
      (* 2. Check for Deletion *)
      if negb (metav1.IsZero (metav1.DeletionTimestamp (v1.ObjectMeta pr))) then
        log.Info "PipelineRun is deleting, removing metrics"
          [log.Str "pipelinerun"; log.Str (Name pr)] ;;
        log.lift (cel.DeletePipelineRunStatusMetric pr) ;;
        mret (ctrl.Result0, None)
      else
        (* 3. Update the metric for the current state *)
        log.lift (cel.UpdatePipelineRunStatusMetric pr) ;;
        mret (ctrl.Result0, None)
  end.

End Controller.

(** ** The metric state store *)

(** A metric record without its identity: the active status label and the
    auxiliary build-platform label. *)
Record MetricRecord : Type := {
  status : string;
  build_platform : string
}.

(** The Store: at most one record per (namespace, name). *)
Abbreviation Store := (gmap (string * string) MetricRecord).

(** Modelled from the spec: package cel of tekton-kueue is outside this repository;
    [upsert] replaces any prior record for the identity. *)
Definition upsert (identity : string * string) (record : MetricRecord)
    : State Store unit :=
  modify (fun m : Store => <[identity := record]> m).

(** Modelled from the spec: package cel of tekton-kueue is outside this repository;
    [remove] deletes the record if present, and removing an absent identity
    is a no-op, not an error. *)
Definition remove (identity : string * string) : State Store unit :=
  modify (fun m : Store => delete identity m).

(** Modelled from the spec: package cel of tekton-kueue is outside this repository;
    [snapshot] is a point-in-time read of the records. *)
Definition snapshot : State Store (list (string * string * MetricRecord)) :=
  fun m => (map_to_list m, m).

(** The classifier: status label and auxiliary label of an entity, as
    [Collect] computes them for every item. *)
Definition classify `{Tekton : v1.Package} (pr : v1.PipelineRun) : string * string :=
  (getPipelineRunStatus pr, getBuildPlatformLabel pr).

(** Modelled from the spec: package cel of tekton-kueue is outside this repository;
    the two delete entry points remove the record keyed by namespace and
    name, the update entry point runs the classifier and upserts. *)
Definition celStore `{Tekton : v1.Package} : cel.Metrics Store :=
  {| cel.DeletePipelineRunStatusMetricByNamespacedName nn :=
       remove (nnNamespace nn, nnName nn);
     cel.DeletePipelineRunStatusMetric pr :=
       remove (Namespace pr, Name pr);
     cel.UpdatePipelineRunStatusMetric pr :=
       upsert (Namespace pr, Name pr)
         {| status := fst (classify pr); build_platform := snd (classify pr) |} |}.

(** ** The classifier as the specification words it *)

Section Documented.

Context `{Tekton : v1.Package}.

(** A condition has a definite outcome when its tri-state is not unknown. *)
Definition definite (c : apis.Condition) : bool :=
  match apis.Status c with
  | apis.ConditionUnknown => false
  | _ => true
  end.

(** Section 4.1, step by step: the reason of the first completion-type
    condition with a definite outcome; else Pending if the pending
    indicator is set; else Unknown. *)
Definition classify_documented (pr : v1.PipelineRun) : string :=
  match List.find
          (fun c => String.eqb (apis.Type_ c) v1.PipelineRunReasonSucceeded && definite c)
          (v1.Conditions (v1.Status pr)) with
  | Some c => apis.Reason c
  | None => if v1.IsPending pr then v1.PipelineRunReasonPending else "Unknown"
  end.

End Documented.

(** ** The Tekton package, and sample entities *)

(** The Tekton names at their upstream values: the condition type of a
    PipelineRun is "Succeeded", the pending reason and the pending spec
    status are both "PipelineRunPending". *)
Definition tekton : v1.Package :=
  {| v1.PipelineRunReasonSucceeded := "Succeeded";
     v1.PipelineRunReasonPending := "PipelineRunPending";
     v1.IsPending pr := String.eqb (v1.SpecStatus (v1.Spec pr)) "PipelineRunPending" |}.

Definition mkPipelineRun (ns name : string) (deletion : option metav1.Time)
    (params : list v1.Param) (specStatus : string)
    (conditions : list apis.Condition) : v1.PipelineRun :=
  {| v1.ObjectMeta :=
       {| metav1.Namespace := ns; metav1.Name := name;
          metav1.DeletionTimestamp := deletion |};
     v1.Spec := {| v1.Params := params; v1.SpecStatus := specStatus |};
     v1.Status := {| v1.Conditions := conditions |} |}.

Definition succeeded (s : apis.ConditionStatus) (reason : string) : apis.Condition :=
  {| apis.Type_ := "Succeeded"; apis.Status := s; apis.Reason := reason |}.

Definition platforms : v1.Param :=
  {| v1.Name := "build-platforms";
     v1.Value := v1.NewArrayValue ["linux/amd64"; "linux/arm64"] |}.

Definition platformString : v1.Param :=
  {| v1.Name := "build-platforms"; v1.Value := v1.NewStringValue "linux/amd64" |}.

Definition revision : v1.Param :=
  {| v1.Name := "revision"; v1.Value := v1.NewStringValue "main" |}.

(** A run in progress: its completion condition is still unknown. *)
Definition prRunning : v1.PipelineRun :=
  mkPipelineRun "team-a" "build-1" None [revision; platforms] ""
    [succeeded apis.ConditionUnknown "Running"].

(** A cancelled run: Tekton reports the reason "Cancelled". *)
Definition prCancelled : v1.PipelineRun :=
  mkPipelineRun "team-a" "build-2" None [] ""
    [succeeded apis.ConditionFalse "Cancelled"].

Definition prSucceeded : v1.PipelineRun :=
  mkPipelineRun "team-a" "build-3" None [platformString] ""
    [succeeded apis.ConditionTrue "Succeeded"].

(** A run held back by the queue: no condition yet, spec status pending. *)
Definition prPending : v1.PipelineRun :=
  mkPipelineRun "team-b" "build-4" None [] "PipelineRunPending" [].

(** A run that is terminating: its deletion timestamp is set. *)
Definition prDeleting : v1.PipelineRun :=
  mkPipelineRun "team-a" "build-1" (Some 1761868800000000000%Z) [] ""
    [succeeded apis.ConditionUnknown "Running"].

(** API servers: one that lists the given runs, one whose listing fails. *)
Definition listing (items : list v1.PipelineRun) : tektonclientset.Interface :=
  {| tektonclientset.List _ := ({| v1.Items := items |}, None) |}.

Definition unavailable : errors.error :=
  {| errors.Reason := errors.StatusReasonTimeout;
     errors.Message := "the server was unable to return a response in time" |}.

Definition notFound : errors.error :=
  {| errors.Reason := errors.StatusReasonNotFound;
     errors.Message := "pipelineruns.tekton.dev not found" |}.

Definition failing : tektonclientset.Interface :=
  {| tektonclientset.List _ := ({| v1.Items := [] |}, Some unavailable) |}.

(** The zero value of a PipelineRun: what [var pr] holds when [Get] fails. *)
Definition zeroPipelineRun : v1.PipelineRun :=
  mkPipelineRun "" "" None [] "" [].

(** An API server that holds the given objects, and one that times out. *)
Definition serving (objects : gmap (string * string) v1.PipelineRun) : client.Client :=
  {| client.Get key :=
       match objects !! (nnNamespace key, nnName key) with
       | Some pr => (pr, None)
       | None => (zeroPipelineRun, Some notFound)
       end |}.

Definition timingOut : client.Client :=
  {| client.Get _ := (zeroPipelineRun, Some unavailable) |}.

Definition request (ns name : string) : ctrl.Request :=
  {| ctrl.NamespacedName := {| nnNamespace := ns; nnName := name |} |}.

(** A Store that holds one record, for team-a/build-1, labelled Running. *)
Definition oneRunning : log.Logged Store :=
  {| log.state :=
       {[ ("team-a", "build-1") := {| status := "Running"; build_platform := "" |} ]};
     log.lines := [] |}.

Definition freshScrape : Scrape := {| log.state := []; log.lines := [] |}.

(** What the caller of a scrape receives: the metrics sent on a fresh
    channel. *)
Definition scrape `{Tekton : v1.Package} (c : PipelineRunCollector)
    : list prometheus.Metric :=
  log.state (exec (Collect c) freshScrape).

(** The identity a row is labelled with. *)
Definition rowIdentity (m : prometheus.Metric) : option (string * string) :=
  match prometheus.labelValues m with
  | ns :: name :: _ => Some (ns, name)
  | _ => None
  end.

(** The rows of the active state: those whose value is 1. *)
Definition active (rows : list prometheus.Metric) : list prometheus.Metric :=
  List.filter (fun m => PrimFloat.eqb (prometheus.value m) 1%float) rows.

(** ** PipelineRun_exporter.go: Describe and KubeConfig *)

(** [Describe] sends the metric description to the Prometheus channel,
    here the descriptions sent on it so far. *)
Definition Describe (c : PipelineRunCollector) : State (list prometheus.Desc) unit :=
  modify (fun ch => ch ++ [prStatusDesc c]).

Module rest.

(** [rest.Config], as far as two configurations are told apart. *)
Record Config : Type := {
  Host : string
}.

End rest.

Module os.

(** [os.Getenv]: the value of the variable, or "" when it is not set. *)
Definition Getenv (environ : gmap string string) (key : string) : string :=
  default "" (environ !! key).

End os.

(** The machine the exporter starts on: what [rest.InClusterConfig]
    answers, the process environment with [os.ExpandEnv] over it, and what
    [clientcmd.BuildConfigFromFlags] answers for a master URL and a path. *)
Record Machine : Type := {
  InClusterConfig : option rest.Config * option errors.error;
  environ : gmap string string;
  ExpandEnv : string -> string;
  BuildConfigFromFlags : string -> string -> option rest.Config * option errors.error
}.

(** [KubeConfig] loads Kubernetes config, prioritizing in-cluster, then
    fallback to kubeconfig file. *)
Definition KubeConfig {S} (m : Machine)
    : State (log.Logged S) (option rest.Config * option errors.error) :=
  let (config, err) := InClusterConfig m in
  match err with
  | None => mret (config, None)
  | Some e =>
      log.Printf "InClusterConfig failed: %v. Trying kubeconfig..." [log.Err e] ;;
      let kubeconfigPath := os.Getenv (environ m) "KUBECONFIG" in
      let kubeconfigPath :=
        if String.eqb kubeconfigPath "" then ExpandEnv m "$HOME/.kube/config"
        else kubeconfigPath in
      mret (BuildConfigFromFlags m "" kubeconfigPath)
  end.

(** ** Reading rows and parameters *)

(** The status label of a row: its third label value. *)
Definition statusLabel (m : prometheus.Metric) : option string :=
  prometheus.labelValues m !! 2%nat.

(** The parameter [getBuildPlatformLabel] reads: the first one named
    build-platforms. *)
Definition platformParam (pr : v1.PipelineRun) : option v1.Param :=
  List.find (fun p => String.eqb (v1.Name p) "build-platforms") (v1.Params (v1.Spec pr)).

(** The delimiter of the build-platform label, as a character. *)
Definition comma : Ascii.ascii := Ascii.ascii_of_nat 44.

(** A string without the delimiter. *)
Fixpoint commaFree (s : string) : bool :=
  match s with
  | EmptyString => true
  | String ch s' => negb (Ascii.eqb ch comma) && commaFree s'
  end.

(** The literal entries of [allPossibleStates]. *)
Definition literalStates : list string :=
  [ "Succeeded"; "Failed"; "Running"; "PipelineRunPending";
    "PipelineRunCancelled"; "Unknown" ].

(** A machine outside a cluster, with the given environment and one
    kubeconfig file. *)
Definition outsideCluster (env : gmap string string) (file : string) : Machine :=
  {| InClusterConfig :=
       (None, Some {| errors.Reason := errors.StatusReasonUnknown;
                      errors.Message := "unable to load in-cluster configuration" |});
     environ := env;
     ExpandEnv path :=
       if String.eqb path "$HOME/.kube/config"
       then String.append (os.Getenv env "HOME") "/.kube/config"
       else path;
     BuildConfigFromFlags _ path :=
       if String.eqb path file
       then (Some {| rest.Host := "https://api.example:6443" |}, None)
       else (None, Some {| errors.Reason := errors.StatusReasonUnknown;
                           errors.Message := "no such file or directory" |}) |}.

(** A live run with an array of one platform. *)
Definition prArm : v1.PipelineRun :=
  mkPipelineRun "team-a" "build-5" None
    [ {| v1.Name := "build-platforms"; v1.Value := v1.NewArrayValue ["linux/arm64"] |} ]
    "" [succeeded apis.ConditionTrue "Succeeded"].

(** The same platforms as [prRunning], for another entity. *)
Definition prOtherTeam : v1.PipelineRun :=
  mkPipelineRun "team-b" "build-7" None [platforms] "" [].

(** A failed run that also reports a condition of another type. *)
Definition prReadyFailed : v1.PipelineRun :=
  mkPipelineRun "team-a" "build-6" None [] ""
    [ {| apis.Type_ := "Ready"; apis.Status := apis.ConditionTrue;
         apis.Reason := "Ready" |};
      succeeded apis.ConditionFalse "Failed" ].

Definition prFailed : v1.PipelineRun :=
  mkPipelineRun "team-a" "build-6" None [] "" [succeeded apis.ConditionFalse "Failed"].

(** A workstation: KUBECONFIG is set but empty, HOME is /root. *)
Definition workstation : Machine :=
  outsideCluster (<["KUBECONFIG" := ""]> {[ "HOME" := "/root" ]}) "/root/.kube/config".

Definition quiet : log.Logged unit := {| log.state := tt; log.lines := [] |}.

(** A process that holds three runs in memory and has sent and logged
    something before. *)
Definition busy : golang.Process :=
  {| golang.heap := {[ 1 := prRunning; 2 := prPending; 3 := prArm ]};
     golang.output :=
       {| log.state :=
            [ prometheus.MustNewConstMetric
                (prStatusDesc (NewPipelineRunCollector (listing [])))
                prometheus.GaugeValue 1%float
                [ "team-a"; "build-0"; "Succeeded"; "" ] ];
          log.lines :=
            [ {| log.format := "Collecting metrics from Kubernetes API...";
                 log.args := [] |} ] |} |}.

(** * Properties *)

(** ** Running the monad *)

Lemma bind_run {S A B} (m : State S A) (k : A -> State S B) (s : S) :
  (m ≫= k) s = let (a, s') := m s in k a s'.
Proof. reflexivity. Qed.

Lemma write_run {S} (l : log.Line) (w : log.Logged S) :
  log.write l w = (tt, {| log.state := log.state w; log.lines := log.lines w ++ [l] |}).
Proof. reflexivity. Qed.

Lemma lift_modify_run {S} (f : S -> S) (w : log.Logged S) :
  log.lift (modify f) w
  = (tt, {| log.state := f (log.state w); log.lines := log.lines w |}).
Proof. reflexivity. Qed.

(** A loop whose body only appends to the channel appends the bodies'
    rows in order. *)
Lemma forRange_emit {A} (g : A -> list prometheus.Metric)
    (body : A -> State Scrape unit) (xs : list A) :
  (forall x w, body x w
     = (tt, {| log.state := log.state w ++ g x; log.lines := log.lines w |})) ->
  forall w, forRange xs body w
     = (tt, {| log.state := log.state w ++ flat_map g xs; log.lines := log.lines w |}).
Proof.
  intros Hbody. induction xs as [|x xs IH]; intros w; simpl.
  - destruct w as [ch ls]. simpl. by rewrite app_nil_r.
  - rewrite bind_run, Hbody, IH. simpl. by rewrite <- app_assoc.
Qed.

Lemma flat_map_singleton {A B} (f : A -> B) (xs : list A) :
  flat_map (fun x => [f x]) xs = map f xs.
Proof. induction xs as [|x xs IH]; [reflexivity|]. simpl. rewrite IH. reflexivity. Qed.

(** ** strings.Join *)

Lemma append_assoc (a b c : string) :
  String.append (String.append a b) c = String.append a (String.append b c).
Proof.
  induction a as [|ch a IH]; [reflexivity|].
  change (String ch (String.append (String.append a b) c)
          = String ch (String.append a (String.append b c))).
  by rewrite IH.
Qed.

Lemma Join_fold_prefix (sep acc e : string) (rest : list string) :
  fold_left (fun b s => String.append (String.append b sep) s) rest (String.append acc e)
  = String.append acc
      (fold_left (fun b s => String.append (String.append b sep) s) rest e).
Proof.
  revert e. induction rest as [|x rest IH]; intros e; simpl; [reflexivity|].
  rewrite <- IH. f_equal. by rewrite !append_assoc.
Qed.

(** Go's builder loop computes the usual join: the elements in their
    order, with the separator between neighbours. *)
Lemma Join_concat (elems : list string) (sep : string) :
  strings.Join elems sep = String.concat sep elems.
Proof.
  destruct elems as [|e0 rest]; [reflexivity|].
  revert e0. induction rest as [|e1 rest IH]; intros e0; [reflexivity|].
  change (String.concat sep (e0 :: e1 :: rest))
    with (String.append e0 (String.append sep (String.concat sep (e1 :: rest)))).
  rewrite <- IH. unfold strings.Join. simpl.
  rewrite Join_fold_prefix. by rewrite append_assoc.
Qed.

(** ** The exporter *)

Section ExporterProperties.

Context `{Tekton : v1.Package}.

Lemma conditionsLoop_first (cs : list apis.Condition) :
  (conditionsLoop cs = None
   /\ Forall (fun c => apis.Type_ c <> v1.PipelineRunReasonSucceeded) cs)
  \/ (exists pre c post,
        cs = pre ++ c :: post
        /\ Forall (fun c' => apis.Type_ c' <> v1.PipelineRunReasonSucceeded) pre
        /\ apis.Type_ c = v1.PipelineRunReasonSucceeded
        /\ conditionsLoop cs = Some (apis.Reason c)).
Proof.
  induction cs as [|c cs IH]; simpl.
  - left. split; [reflexivity | constructor].
  - destruct (String.eqb (apis.Type_ c) v1.PipelineRunReasonSucceeded) eqn:E.
    + right. exists [], c, cs. apply String.eqb_eq in E. by repeat split.
    + apply String.eqb_neq in E. destruct IH as [[Hn Hall]|(pre & c' & post & -> & Hpre & Hc & Hr)].
      * left. split; [assumption | by constructor].
      * right. exists (c :: pre), c', post. repeat split; try assumption.
        by constructor.
Qed.

Lemma paramsLoop_first (params : list v1.Param) :
  (paramsLoop params = None
   /\ Forall (fun p => v1.Name p <> "build-platforms") params)
  \/ (exists pre p post,
        params = pre ++ p :: post
        /\ Forall (fun p' => v1.Name p' <> "build-platforms") pre
        /\ v1.Name p = "build-platforms"
        /\ paramsLoop params = Some (strings.Join (v1.ArrayVal (v1.Value p)) ",")).
Proof.
  induction params as [|p ps IH]; simpl.
  - left. split; [reflexivity | constructor].
  - destruct (String.eqb (v1.Name p) "build-platforms") eqn:E.
    + right. exists [], p, ps. apply String.eqb_eq in E. by repeat split.
    + apply String.eqb_neq in E. destruct IH as [[Hn Hall]|(pre & p' & post & -> & Hpre & Hp & Hr)].
      * left. split; [assumption | by constructor].
      * right. exists (p :: pre), p', post. repeat split; try assumption.
        by constructor.
Qed.

(** The loop skips every parameter in front of the first one named
    build-platforms. *)
Lemma paramsLoop_skip (pre rest : list v1.Param) :
  Forall (fun p => v1.Name p <> "build-platforms") pre ->
  paramsLoop (pre ++ rest) = paramsLoop rest.
Proof.
  induction 1 as [|p pre Hp _ IH]; simpl; [reflexivity|].
  apply String.eqb_neq in Hp. by rewrite Hp.
Qed.

(** A listing that succeeds: [Collect] appends the state set of every
    item, in listing order, and logs its two lines. *)
Lemma Collect_listed (c : PipelineRunCollector) (prList : v1.PipelineRunList)
    (w : Scrape) :
  tektonclientset.List (tektonClient c) "" = (prList, None) ->
  Collect c w
  = (tt, {| log.state := log.state w ++ flat_map (stateSet c) (v1.Items prList);
            log.lines := log.lines w ++
              [ {| log.format := "Collecting metrics from Kubernetes API...";
                   log.args := [] |};
                {| log.format := "Collected metrics for %d PipelineRuns.";
                   log.args := [log.Int (length (v1.Items prList))] |} ] |}).
Proof.
  intros HList. unfold Collect. rewrite bind_run. unfold log.Println.
  rewrite write_run, HList, bind_run.
  rewrite (forRange_emit (stateSet c)).
  - unfold log.Printf. rewrite write_run. simpl. by rewrite <- app_assoc.
  - intros pr w'. unfold stateSet. rewrite <- flat_map_singleton.
    apply forRange_emit. intros state w''. reflexivity.
Qed.

Lemma scrape_listed (c : PipelineRunCollector) (prList : v1.PipelineRunList) :
  tektonclientset.List (tektonClient c) "" = (prList, None) ->
  scrape c = flat_map (stateSet c) (v1.Items prList).
Proof. intros HList. unfold scrape, exec. by rewrite (Collect_listed _ _ _ HList). Qed.

(** Every row has one label value per variable label of the description. *)
Lemma stateSet_arity (client : tektonclientset.Interface) (pr : v1.PipelineRun) :
  Forall (fun m => length (prometheus.labelValues m)
                   = length (prometheus.variableLabels (prometheus.desc m)))
    (stateSet (NewPipelineRunCollector client) pr).
Proof.
  unfold stateSet. apply List.Forall_forall. intros m Hm.
  apply in_map_iff in Hm. by destruct Hm as (state & <- & _).
Qed.

(** The number of active rows of an entity is the number of times its
    status occurs among the known states. *)
Lemma active_stateSet (c : PipelineRunCollector) (pr : v1.PipelineRun) :
  length (active (stateSet c pr))
  = length (List.filter (fun state => String.eqb state (getPipelineRunStatus pr))
              allPossibleStates).
Proof.
  unfold active, stateSet. induction allPossibleStates as [|state l IH]; simpl.
  - reflexivity.
  - destruct (String.eqb state (getPipelineRunStatus pr)); simpl; by rewrite IH.
Qed.

(** C1 (as amended): [getPipelineRunStatus] returns the reason of the first
    condition, in source order, whose type is the completion type, whatever
    the tri-state of that condition; if no condition has that type it
    returns the pending reason when the pending indicator is set, and
    Unknown otherwise. *)
Theorem getPipelineRunStatus_first_match (pr : v1.PipelineRun) :
  (exists pre c post,
      v1.Conditions (v1.Status pr) = pre ++ c :: post
      /\ Forall (fun c' => apis.Type_ c' <> v1.PipelineRunReasonSucceeded) pre
      /\ apis.Type_ c = v1.PipelineRunReasonSucceeded
      /\ getPipelineRunStatus pr = apis.Reason c)
  \/ (Forall (fun c => apis.Type_ c <> v1.PipelineRunReasonSucceeded)
        (v1.Conditions (v1.Status pr))
      /\ v1.IsPending pr = true
      /\ getPipelineRunStatus pr = v1.PipelineRunReasonPending)
  \/ (Forall (fun c => apis.Type_ c <> v1.PipelineRunReasonSucceeded)
        (v1.Conditions (v1.Status pr))
      /\ v1.IsPending pr = false
      /\ getPipelineRunStatus pr = "Unknown").
Proof.
  unfold getPipelineRunStatus.
  assert (Hguard : (if Nat.ltb 0 (length (v1.Conditions (v1.Status pr)))
                    then conditionsLoop (v1.Conditions (v1.Status pr)) else None)
                   = conditionsLoop (v1.Conditions (v1.Status pr))).
  { by destruct (v1.Conditions (v1.Status pr)). }
  cbv zeta. rewrite Hguard.
  destruct (conditionsLoop_first (v1.Conditions (v1.Status pr)))
    as [[Hnone Hall]|(pre & c & post & Hsplit & Hpre & Hc & Hsome)].
  - rewrite Hnone. right. destruct (v1.IsPending pr); [left | right]; by repeat split.
  - rewrite Hsome. left. by exists pre, c, post.
Qed.

(** C8: the build-platform label of an entity is the empty string when no
    parameter is named build-platforms, and otherwise the array values of
    the first such parameter joined with "," in their order; every row that
    [Collect] sends carries the label of its entity as its fourth label
    value, and every listed entity has such a row for each known state. *)
Theorem build_platform_label_always_emitted (c : PipelineRunCollector)
    (prList : v1.PipelineRunList) (pr : v1.PipelineRun) :
  tektonclientset.List (tektonClient c) "" = (prList, None) ->
  In pr (v1.Items prList) ->
  ((Forall (fun p => v1.Name p <> "build-platforms") (v1.Params (v1.Spec pr))
    /\ getBuildPlatformLabel pr = "")
   \/ (exists pre p post,
         v1.Params (v1.Spec pr) = pre ++ p :: post
         /\ Forall (fun p' => v1.Name p' <> "build-platforms") pre
         /\ v1.Name p = "build-platforms"
         /\ getBuildPlatformLabel pr = String.concat "," (v1.ArrayVal (v1.Value p))))
  /\ (forall state, In state allPossibleStates ->
        In [ Namespace pr; Name pr; state; getBuildPlatformLabel pr ]
           (map prometheus.labelValues (scrape c)))
  /\ Forall (fun m => exists pr' state,
                In pr' (v1.Items prList)
                /\ prometheus.labelValues m
                   = [ Namespace pr'; Name pr'; state; getBuildPlatformLabel pr' ])
        (scrape c).
Proof.
  intros HList Hin. rewrite (scrape_listed _ _ HList). split; [|split].
  - unfold getBuildPlatformLabel.
    destruct (paramsLoop_first (v1.Params (v1.Spec pr)))
      as [[Hnone Hall]|(pre & p & post & Hsplit & Hpre & Hp & Hsome)].
    + left. by rewrite Hnone.
    + right. exists pre, p, post. rewrite Hsome, Join_concat. by repeat split.
  - intros state Hstate. apply in_map_iff.
    eexists. split; [|apply in_flat_map; exists pr; split; [exact Hin|]].
    2:{ unfold stateSet. apply in_map_iff. exists state. split; [reflexivity|exact Hstate]. }
    reflexivity.
  - apply List.Forall_forall. intros m Hm.
    apply in_flat_map in Hm. destruct Hm as (pr' & Hpr' & Hm).
    unfold stateSet in Hm. apply in_map_iff in Hm. destruct Hm as (state & <- & _).
    by exists pr', state.
Qed.

Lemma go_bind_run {W A B} (m : golang.Go W A) (k : A -> golang.Go W B) (w : W) :
  (m ≫= k) w
  = match m w with
    | (golang.Returned a, w') => k a w'
    | (golang.Panicked msg, w') => (golang.Panicked msg, w')
    end.
Proof. reflexivity. Qed.

Lemma deref_valid (p : golang.Process) (a : nat) (pr : v1.PipelineRun) :
  golang.heap p !! a = Some pr ->
  golang.deref (Some a) p = (golang.Returned pr, p).
Proof. intros Hheap. unfold golang.deref. by rewrite Hheap. Qed.

(** A range over a slice never reads out of range: with a body that only
    decides whether to return, the loop from index [i] returns what the
    first deciding element among [drop i xs] returns, and the world is
    left as it was. *)
Lemma rangeFrom_returns {W A B} (f : A -> option B) (loop : list A -> option B)
    (body : A -> golang.Go W (option B)) (xs : list A) :
  loop [] = None ->
  (forall x l, loop (x :: l) = match f x with Some b => Some b | None => loop l end) ->
  (forall x w, body x w = (golang.Returned (f x), w)) ->
  forall n i w, i + n = length xs ->
    golang.rangeFrom xs n i body w = (golang.Returned (loop (drop i xs)), w).
Proof.
  intros Hnil Hcons Hbody. induction n as [|n IH]; intros i w Hlen.
  - cbn [golang.rangeFrom]. rewrite drop_ge by lia. by rewrite Hnil.
  - assert (Hlt : i < length xs) by lia.
    destruct (lookup_lt_is_Some_2 xs i Hlt) as [x Hx].
    rewrite (drop_S _ _ _ Hx), Hcons. cbn [golang.rangeFrom].
    rewrite go_bind_run. unfold golang.index. rewrite Hx.
    unfold mret at 1, golang.go_ret at 1. cbv beta iota.
    rewrite go_bind_run, Hbody.
    destruct (f x) as [b|]; [reflexivity|]. apply IH. lia.
Qed.

Lemma getPipelineRunStatus_returns (p : golang.Process) (a : nat) (pr : v1.PipelineRun) :
  golang.heap p !! a = Some pr ->
  golang.getPipelineRunStatus (Some a) p = (golang.Returned (getPipelineRunStatus pr), p).
Proof.
  intros Hheap. unfold golang.getPipelineRunStatus, getPipelineRunStatus.
  rewrite go_bind_run, (deref_valid _ _ _ Hheap), go_bind_run. cbv zeta.
  assert (Hloop : forall w : golang.Process,
            golang.range (W := golang.Process) (v1.Conditions (v1.Status pr))
              (fun c => if String.eqb (apis.Type_ c) v1.PipelineRunReasonSucceeded
                        then mret (Some (apis.Reason c)) else mret None) w
            = (golang.Returned (conditionsLoop (v1.Conditions (v1.Status pr))), w)).
  { intros w. unfold golang.range.
    rewrite (rangeFrom_returns
               (fun c => if String.eqb (apis.Type_ c) v1.PipelineRunReasonSucceeded
                         then Some (apis.Reason c) else None)
               conditionsLoop); try done.
    - intros c l. cbn [conditionsLoop].
      by destruct (String.eqb (apis.Type_ c) v1.PipelineRunReasonSucceeded).
    - intros c w'.
      by destruct (String.eqb (apis.Type_ c) v1.PipelineRunReasonSucceeded). }
  destruct (Nat.ltb 0 (length (v1.Conditions (v1.Status pr)))).
  - rewrite go_bind_run, (deref_valid _ _ _ Hheap), Hloop.
    destruct (conditionsLoop (v1.Conditions (v1.Status pr))); [reflexivity|].
    rewrite go_bind_run, (deref_valid _ _ _ Hheap). by destruct (v1.IsPending pr).
  - unfold mret at 1, golang.go_ret at 1. cbv beta iota.
    rewrite go_bind_run, (deref_valid _ _ _ Hheap). by destruct (v1.IsPending pr).
Qed.

Lemma getBuildPlatformLabel_returns (p : golang.Process) (a : nat) (pr : v1.PipelineRun) :
  golang.heap p !! a = Some pr ->
  golang.getBuildPlatformLabel (Some a) p
  = (golang.Returned (getBuildPlatformLabel pr), p).
Proof.
  intros Hheap. unfold golang.getBuildPlatformLabel, getBuildPlatformLabel.
  rewrite go_bind_run, (deref_valid _ _ _ Hheap), go_bind_run. unfold golang.range.
  rewrite (rangeFrom_returns
             (fun param => if String.eqb (v1.Name param) "build-platforms"
                           then Some (strings.Join (v1.ArrayVal (v1.Value param)) ",")
                           else None)
             paramsLoop); try done.
  - rewrite drop_0. by destruct (paramsLoop (v1.Params (v1.Spec pr))).
  - intros param l. cbn [paramsLoop].
    by destruct (String.eqb (v1.Name param) "build-platforms").
  - intros param w. by destruct (String.eqb (v1.Name param) "build-platforms").
Qed.

(** Through a nil pointer the first field read panics. *)
Lemma classify_nil_panics (p : golang.Process) :
  golang.classify None p
  = (golang.Panicked "invalid memory address or nil pointer dereference", p).
Proof. reflexivity. Qed.

(** C9: the classifier is total and free of side effects: called on a
    pointer to any snapshot in memory, the two helpers return a status
    label and an auxiliary label without a panic, whatever the conditions
    and parameters of the snapshot are, and leave memory, channel and log
    as they were; the two labels are those the pure helpers compute; a
    snapshot without conditions is labelled by its pending indicator
    alone, and a snapshot without parameters has the empty auxiliary
    label. *)
Theorem classify_total (p : golang.Process) (a : nat) (pr : v1.PipelineRun) :
  golang.heap p !! a = Some pr ->
  exists statusLabel auxLabel,
    golang.classify (Some a) p = (golang.Returned (statusLabel, auxLabel), p)
    /\ (statusLabel, auxLabel) = classify pr
    /\ (v1.Conditions (v1.Status pr) = [] ->
        statusLabel = if v1.IsPending pr then v1.PipelineRunReasonPending else "Unknown")
    /\ (v1.Params (v1.Spec pr) = [] -> auxLabel = "").
Proof.
  intros Hheap. exists (getPipelineRunStatus pr), (getBuildPlatformLabel pr).
  split; [|split; [reflexivity|split]].
  - unfold golang.classify.
    rewrite go_bind_run, (getPipelineRunStatus_returns _ _ _ Hheap).
    by rewrite go_bind_run, (getBuildPlatformLabel_returns _ _ _ Hheap).
  - intros Hnone. unfold getPipelineRunStatus. by rewrite Hnone.
  - intros Hnone. unfold getBuildPlatformLabel. by rewrite Hnone.
Qed.

(** C10: when the first parameter named build-platforms carries a single
    string value, the build-platform label is the empty string, the same
    label as that of any entity without such a parameter. *)
Theorem string_valued_platform_is_empty (pr : v1.PipelineRun)
    (pre post : list v1.Param) (p : v1.Param) (s : string) :
  v1.Params (v1.Spec pr) = pre ++ p :: post ->
  Forall (fun p' => v1.Name p' <> "build-platforms") pre ->
  v1.Name p = "build-platforms" ->
  v1.Value p = v1.NewStringValue s ->
  getBuildPlatformLabel pr = ""
  /\ (forall pr',
        Forall (fun p' => v1.Name p' <> "build-platforms") (v1.Params (v1.Spec pr')) ->
        getBuildPlatformLabel pr' = getBuildPlatformLabel pr).
Proof.
  intros Hsplit Hpre Hname Hvalue.
  assert (Hpr : getBuildPlatformLabel pr = "").
  { unfold getBuildPlatformLabel. rewrite Hsplit, (paramsLoop_skip _ _ Hpre). simpl.
    apply String.eqb_eq in Hname. by rewrite Hname, Hvalue. }
  split; [exact Hpr|].
  intros pr' Hnone. rewrite Hpr. unfold getBuildPlatformLabel.
  rewrite <- (app_nil_r (v1.Params (v1.Spec pr'))).
  by rewrite (paramsLoop_skip _ _ Hnone).
Qed.

(** C4: when the listing succeeds, [Collect] appends to the channel rows
    for exactly the identities of the current listing, whatever the channel
    and the log held before: each listed entity labels some new row, and
    each new row is labelled by a listed entity. *)
Theorem Collect_rows_exactly_the_listing (c : PipelineRunCollector)
    (prList : v1.PipelineRunList) (w : Scrape) :
  tektonclientset.List (tektonClient c) "" = (prList, None) ->
  exists rows,
    log.state (exec (Collect c) w) = log.state w ++ rows
    /\ rows = scrape c
    /\ forall id,
         In (Some id) (map rowIdentity rows) <-> In id (map identity (v1.Items prList)).
Proof.
  intros HList. exists (flat_map (stateSet c) (v1.Items prList)).
  split; [|split].
  - unfold exec. by rewrite (Collect_listed _ _ _ HList).
  - by rewrite (scrape_listed _ _ HList).
  - intros id. rewrite !in_map_iff. split.
    + intros (m & Hid & Hm). apply in_flat_map in Hm. destruct Hm as (pr & Hpr & Hm).
      exists pr. split; [|exact Hpr].
      unfold stateSet in Hm. apply in_map_iff in Hm. destruct Hm as (state & <- & _).
      unfold rowIdentity, prometheus.MustNewConstMetric in Hid. cbn in Hid.
      unfold identity. congruence.
    + intros (pr & <- & Hpr).
      exists (prometheus.MustNewConstMetric
                (prStatusDesc c) prometheus.GaugeValue
                (if String.eqb "Succeeded" (getPipelineRunStatus pr)
                 then 1%float else 0%float)
                [ Namespace pr; Name pr; "Succeeded"; getBuildPlatformLabel pr ]).
      split; [reflexivity|].
      apply in_flat_map. exists pr. split; [exact Hpr|].
      unfold stateSet, allPossibleStates. left. reflexivity.
Qed.

(** C3 (as amended): when the listing fails, [Collect] logs the error and
    returns without sending a row: the channel is left as it was, so the
    caller of a scrape receives no row at all. *)
Theorem Collect_list_failure_sends_nothing (c : PipelineRunCollector)
    (prList : v1.PipelineRunList) (e : errors.error) (w : Scrape) :
  tektonclientset.List (tektonClient c) "" = (prList, Some e) ->
  Collect c w
  = (tt, {| log.state := log.state w;
            log.lines := log.lines w ++
              [ {| log.format := "Collecting metrics from Kubernetes API...";
                   log.args := [] |};
                {| log.format := "Error listing PipelineRuns: %v";
                   log.args := [log.Err e] |} ] |})
  /\ scrape c = [].
Proof.
  intros HList. unfold scrape, exec, Collect. rewrite !bind_run. unfold log.Println.
  rewrite !write_run, HList. unfold log.Printf. rewrite !write_run. simpl.
  split; [by rewrite <- app_assoc | reflexivity].
Qed.

End ExporterProperties.

(** ** The controller, over any metric state *)

Section ControllerProperties.

Context {Store : Type} `{Cel : cel.Metrics Store}.

Lemma lift_run (m : State Store unit) (w : log.Logged Store) :
  log.lift m w = (tt, {| log.state := exec m (log.state w); log.lines := log.lines w |}).
Proof. unfold log.lift, exec. by destruct (m (log.state w)) as [[] s']. Qed.

(** Hard delete: the object is not found. *)
Lemma Reconcile_not_found (r : PipelineRunMetricsReconciler) (req : ctrl.Request)
    (pr : v1.PipelineRun) (e : errors.error) (w : log.Logged Store) :
  client.Get (Client r) (ctrl.NamespacedName req) = (pr, Some e) ->
  errors.IsNotFound e = true ->
  Reconcile r req w
  = ((ctrl.Result0, None),
     {| log.state :=
          exec (cel.DeletePipelineRunStatusMetricByNamespacedName (ctrl.NamespacedName req))
               (log.state w);
        log.lines := log.lines w ++
          [ {| log.format := "PipelineRun not found, deleting metrics";
               log.args := [ log.Str "pipelinerun";
                             log.Str (nnNamespace (ctrl.NamespacedName req));
                             log.Str (nnName (ctrl.NamespacedName req)) ] |} ] |}).
Proof.
  intros HGet HNotFound. unfold Reconcile. rewrite HGet, HNotFound.
  rewrite !bind_run. unfold log.Info. by rewrite write_run, bind_run, lift_run.
Qed.

(** Soft delete: the object exists and its deletion timestamp is set. *)
Lemma Reconcile_terminating (r : PipelineRunMetricsReconciler) (req : ctrl.Request)
    (pr : v1.PipelineRun) (w : log.Logged Store) :
  client.Get (Client r) (ctrl.NamespacedName req) = (pr, None) ->
  metav1.IsZero (metav1.DeletionTimestamp (v1.ObjectMeta pr)) = false ->
  Reconcile r req w
  = ((ctrl.Result0, None),
     {| log.state := exec (cel.DeletePipelineRunStatusMetric pr) (log.state w);
        log.lines := log.lines w ++
          [ {| log.format := "PipelineRun is deleting, removing metrics";
               log.args := [ log.Str "pipelinerun"; log.Str (Name pr) ] |} ] |}).
Proof.
  intros HGet HDeleting. unfold Reconcile. rewrite HGet, HDeleting.
  change (negb false) with true. cbv iota.
  rewrite !bind_run. unfold log.Info. by rewrite write_run, bind_run, lift_run.
Qed.

(** Create or update: the object exists and is not terminating. *)
Lemma Reconcile_update (r : PipelineRunMetricsReconciler) (req : ctrl.Request)
    (pr : v1.PipelineRun) (w : log.Logged Store) :
  client.Get (Client r) (ctrl.NamespacedName req) = (pr, None) ->
  metav1.IsZero (metav1.DeletionTimestamp (v1.ObjectMeta pr)) = true ->
  Reconcile r req w
  = ((ctrl.Result0, None),
     {| log.state := exec (cel.UpdatePipelineRunStatusMetric pr) (log.state w);
        log.lines := log.lines w |}).
Proof.
  intros HGet HLive. unfold Reconcile. rewrite HGet, HLive.
  change (negb true) with false. cbv iota.
  by rewrite bind_run, lift_run.
Qed.

(** C7: when fetching the entity fails with an error other than not
    found, [Reconcile] returns that error and leaves the world as it was:
    no entry point of the metric state is called, whatever that state is. *)
Theorem transient_error_leaves_store_unchanged (r : PipelineRunMetricsReconciler)
    (req : ctrl.Request) (pr : v1.PipelineRun) (e : errors.error)
    (w : log.Logged Store) :
  client.Get (Client r) (ctrl.NamespacedName req) = (pr, Some e) ->
  errors.IsNotFound e = false ->
  Reconcile r req w = ((ctrl.Result0, Some e), w).
Proof.
  intros HGet HTransient. unfold Reconcile. by rewrite HGet, HTransient.
Qed.

End ControllerProperties.

(** ** The controller on the Store *)

Section StoreProperties.

Context `{Tekton : v1.Package}.

#[local] Existing Instance celStore.

(** C5: when the fetched entity has its deletion timestamp set,
    [Reconcile] returns without error, the Store afterwards is the Store
    before with the record of that identity removed and nothing upserted,
    and it has no record for that identity, whatever the conditions of the
    entity are. *)
Theorem soft_delete_removes_record (r : PipelineRunMetricsReconciler)
    (req : ctrl.Request) (pr : v1.PipelineRun) (w : log.Logged Store) :
  client.Get (Client r) (ctrl.NamespacedName req) = (pr, None) ->
  metav1.IsZero (metav1.DeletionTimestamp (v1.ObjectMeta pr)) = false ->
  fst (Reconcile r req w) = (ctrl.Result0, None)
  /\ log.state (exec (Reconcile r req) w) = delete (identity pr) (log.state w)
  /\ log.state (exec (Reconcile r req) w) !! identity pr = None.
Proof.
  intros HGet HDeleting. unfold exec.
  rewrite (Reconcile_terminating _ _ _ _ HGet HDeleting). simpl.
  repeat split. apply lookup_delete_eq.
Qed.

(** C6: processing the same not-found signal, or the same soft-delete
    signal, a second time leaves the Store as the first processing left
    it; and a not-found signal for an identity without a record returns
    without error and leaves the Store as it was. *)
Theorem deletion_signal_idempotent (r : PipelineRunMetricsReconciler)
    (req : ctrl.Request) (pr : v1.PipelineRun) (err : option errors.error)
    (w : log.Logged Store) :
  client.Get (Client r) (ctrl.NamespacedName req) = (pr, err) ->
  match err with
  | Some e => errors.IsNotFound e = true
  | None => metav1.IsZero (metav1.DeletionTimestamp (v1.ObjectMeta pr)) = false
  end ->
  log.state (exec (Reconcile r req) (exec (Reconcile r req) w))
  = log.state (exec (Reconcile r req) w)
  /\ fst (Reconcile r req w) = (ctrl.Result0, None)
  /\ (forall e, err = Some e ->
        log.state w !! (nnNamespace (ctrl.NamespacedName req),
                        nnName (ctrl.NamespacedName req)) = None ->
        log.state (exec (Reconcile r req) w) = log.state w).
Proof.
  intros HGet HSignal. unfold exec. destruct err as [e|].
  - rewrite !(Reconcile_not_found _ _ _ _ _ HGet HSignal). simpl.
    split; [apply delete_delete_eq | split; [reflexivity|]].
    intros _ _ Habsent. by apply delete_id.
  - rewrite !(Reconcile_terminating _ _ _ _ HGet HSignal). simpl.
    split; [apply delete_delete_eq | split; [reflexivity|]].
    intros e He. discriminate He.
Qed.

End StoreProperties.

(** ** The programs on sample entities, at the upstream Tekton names *)

Section Samples.

#[local] Existing Instance tekton.
#[local] Existing Instance celStore.

(** C1, as worded, fails on a run in progress: its only completion
    condition has an unknown outcome and it is not pending, so the worded
    classifier answers Unknown, but the code returns the reason Running. *)
Lemma indefinite_condition_is_reported :
  List.existsb
    (fun c => String.eqb (apis.Type_ c) v1.PipelineRunReasonSucceeded && definite c)
    (v1.Conditions (v1.Status prRunning)) = false
  /\ v1.IsPending prRunning = false
  /\ classify_documented prRunning = "Unknown"
  /\ getPipelineRunStatus prRunning = "Running"
  /\ getPipelineRunStatus prRunning <> classify_documented prRunning.
Proof. repeat split. vm_compute. discriminate. Qed.

(** C2 fails on a cancelled run: its status is the reason Cancelled, which
    is not among the known states, so all seven rows of its state set have
    value 0 and none is active. *)
Theorem cancelled_run_has_no_active_row :
  getPipelineRunStatus prCancelled = "Cancelled"
  /\ map (fun m => (prometheus.labelValues m, prometheus.value m))
         (scrape (NewPipelineRunCollector (listing [prCancelled])))
     = [ (["team-a"; "build-2"; "Succeeded"; ""], 0%float);
         (["team-a"; "build-2"; "Failed"; ""], 0%float);
         (["team-a"; "build-2"; "Running"; ""], 0%float);
         (["team-a"; "build-2"; "PipelineRunPending"; ""], 0%float);
         (["team-a"; "build-2"; "PipelineRunCancelled"; ""], 0%float);
         (["team-a"; "build-2"; "PipelineRunPending"; ""], 0%float);
         (["team-a"; "build-2"; "Unknown"; ""], 0%float) ]
  /\ active (scrape (NewPipelineRunCollector (listing [prCancelled]))) = [].
Proof. repeat split. Qed.

(** The same list also names one state twice when the pending reason is
    PipelineRunPending: a pending run then has two active rows, with equal
    label values. *)
Lemma pending_run_has_two_active_rows :
  getPipelineRunStatus prPending = "PipelineRunPending"
  /\ map prometheus.labelValues
         (active (scrape (NewPipelineRunCollector (listing [prPending]))))
     = [ ["team-b"; "build-4"; "PipelineRunPending"; ""];
         ["team-b"; "build-4"; "PipelineRunPending"; ""] ].
Proof. repeat split. Qed.

(** A run whose status is listed once has exactly one active row. *)
Lemma succeeded_run_has_one_active_row :
  map (fun m => (prometheus.labelValues m, prometheus.value m))
      (active (scrape (NewPipelineRunCollector (listing [prSucceeded]))))
  = [ (["team-a"; "build-3"; "Succeeded"; ""], 1%float) ].
Proof. reflexivity. Qed.

(** C3, as worded, fails: a scrape whose listing fails hands the caller
    the same rows, none, as a scrape that lists an empty cluster. *)
Lemma failed_listing_looks_like_empty_listing :
  tektonclientset.List failing "" = ({| v1.Items := [] |}, Some unavailable)
  /\ tektonclientset.List (listing []) "" = ({| v1.Items := [] |}, None)
  /\ scrape (NewPipelineRunCollector failing) = []
  /\ scrape (NewPipelineRunCollector failing)
     = scrape (NewPipelineRunCollector (listing [])).
Proof. repeat split. Qed.

(** A scrape after a prior one: build-2 was listed before and is gone
    now; the new rows are those of build-1 and build-4 only. *)
Lemma unlisted_entity_not_rendered :
  map rowIdentity (scrape (NewPipelineRunCollector (listing [prRunning; prCancelled])))
  = repeat (Some ("team-a", "build-1")) 7 ++ repeat (Some ("team-a", "build-2")) 7
  /\ map rowIdentity (scrape (NewPipelineRunCollector (listing [prRunning; prPending])))
     = repeat (Some ("team-a", "build-1")) 7 ++ repeat (Some ("team-b", "build-4")) 7.
Proof. split; reflexivity. Qed.

Lemma Collect_list_failure_sends_nothing_witness :
  tektonclientset.List (tektonClient (NewPipelineRunCollector failing)) ""
  = ({| v1.Items := [] |}, Some unavailable)
  /\ (Collect (NewPipelineRunCollector failing) freshScrape
      = (tt, {| log.state := log.state freshScrape;
                log.lines := log.lines freshScrape ++
                  [ {| log.format := "Collecting metrics from Kubernetes API...";
                       log.args := [] |};
                    {| log.format := "Error listing PipelineRuns: %v";
                       log.args := [log.Err unavailable] |} ] |})
      /\ scrape (NewPipelineRunCollector failing) = []).
Proof.
  split; [reflexivity|].
  apply (Collect_list_failure_sends_nothing
           (NewPipelineRunCollector failing) {| v1.Items := [] |} unavailable freshScrape).
  reflexivity.
Defined.

Lemma Collect_rows_exactly_the_listing_witness :
  tektonclientset.List
    (tektonClient (NewPipelineRunCollector (listing [prRunning; prPending]))) ""
  = ({| v1.Items := [prRunning; prPending] |}, None)
  /\ exists rows,
       log.state (exec (Collect (NewPipelineRunCollector (listing [prRunning; prPending])))
                       freshScrape)
       = log.state freshScrape ++ rows
       /\ rows = scrape (NewPipelineRunCollector (listing [prRunning; prPending]))
       /\ forall id,
            In (Some id) (map rowIdentity rows)
            <-> In id (map identity (v1.Items {| v1.Items := [prRunning; prPending] |})).
Proof.
  split; [reflexivity|].
  apply (Collect_rows_exactly_the_listing
           (NewPipelineRunCollector (listing [prRunning; prPending]))
           {| v1.Items := [prRunning; prPending] |} freshScrape).
  reflexivity.
Defined.

Lemma build_platform_label_always_emitted_witness :
  tektonclientset.List (tektonClient (NewPipelineRunCollector (listing [prRunning]))) ""
  = ({| v1.Items := [prRunning] |}, None)
  /\ In prRunning (v1.Items {| v1.Items := [prRunning] |})
  /\ getBuildPlatformLabel prRunning = "linux/amd64,linux/arm64"
  /\ Forall (fun m => exists pr' state,
                In pr' (v1.Items {| v1.Items := [prRunning] |})
                /\ prometheus.labelValues m
                   = [ Namespace pr'; Name pr'; state; getBuildPlatformLabel pr' ])
       (scrape (NewPipelineRunCollector (listing [prRunning]))).
Proof.
  split; [reflexivity|]. split; [left; reflexivity|]. split; [reflexivity|].
  apply (build_platform_label_always_emitted
           (NewPipelineRunCollector (listing [prRunning]))
           {| v1.Items := [prRunning] |} prRunning);
    [reflexivity | left; reflexivity].
Defined.

Lemma string_valued_platform_is_empty_witness :
  v1.Params (v1.Spec prSucceeded) = [] ++ platformString :: []
  /\ Forall (fun p' => v1.Name p' <> "build-platforms") (@nil v1.Param)
  /\ v1.Name platformString = "build-platforms"
  /\ v1.Value platformString = v1.NewStringValue "linux/amd64"
  /\ getBuildPlatformLabel prSucceeded = "".
Proof.
  split; [reflexivity|]. split; [constructor|]. split; [reflexivity|].
  split; [reflexivity|].
  exact (proj1 (string_valued_platform_is_empty
                  prSucceeded [] [] platformString "linux/amd64"
                  eq_refl (List.Forall_nil _) eq_refl eq_refl)).
Defined.

Lemma transient_error_leaves_store_unchanged_witness :
  client.Get timingOut (ctrl.NamespacedName (request "team-a" "build-1"))
  = (zeroPipelineRun, Some unavailable)
  /\ errors.IsNotFound unavailable = false
  /\ Reconcile {| Client := timingOut |} (request "team-a" "build-1") oneRunning
     = ((ctrl.Result0, Some unavailable), oneRunning).
Proof.
  split; [reflexivity|]. split; [reflexivity|].
  apply (transient_error_leaves_store_unchanged
           {| Client := timingOut |} (request "team-a" "build-1")
           zeroPipelineRun unavailable oneRunning);
    reflexivity.
Defined.

Lemma soft_delete_removes_record_witness :
  client.Get (serving {[ ("team-a", "build-1") := prDeleting ]})
    (ctrl.NamespacedName (request "team-a" "build-1"))
  = (prDeleting, None)
  /\ metav1.IsZero (metav1.DeletionTimestamp (v1.ObjectMeta prDeleting)) = false
  /\ log.state oneRunning !! identity prDeleting
     = Some {| status := "Running"; build_platform := "" |}
  /\ log.state
       (exec (Reconcile {| Client := serving {[ ("team-a", "build-1") := prDeleting ]} |}
                (request "team-a" "build-1"))
             oneRunning)
     !! identity prDeleting = None.
Proof.
  split; [reflexivity|]. split; [reflexivity|]. split; [reflexivity|].
  apply (soft_delete_removes_record
           {| Client := serving {[ ("team-a", "build-1") := prDeleting ]} |}
           (request "team-a" "build-1") prDeleting oneRunning);
    reflexivity.
Defined.

Lemma deletion_signal_idempotent_witness :
  client.Get (serving ∅) (ctrl.NamespacedName (request "team-b" "build-9"))
  = (zeroPipelineRun, Some notFound)
  /\ errors.IsNotFound notFound = true
  /\ log.state oneRunning !! ("team-b", "build-9") = None
  /\ log.state (exec (Reconcile {| Client := serving ∅ |} (request "team-b" "build-9"))
                     oneRunning)
     = log.state oneRunning.
Proof.
  split; [reflexivity|]. split; [reflexivity|]. split; [reflexivity|].
  exact (proj2 (proj2 (deletion_signal_idempotent
                         {| Client := serving ∅ |} (request "team-b" "build-9")
                         zeroPipelineRun (Some notFound) oneRunning eq_refl eq_refl))
               notFound eq_refl eq_refl).
Defined.

(** The classifier run on the three runs in the memory of [busy]. *)
Lemma classify_busy :
  golang.classify (Some 1) busy
  = (golang.Returned ("Running", "linux/amd64,linux/arm64"), busy)
  /\ golang.classify (Some 2) busy = (golang.Returned ("PipelineRunPending", ""), busy)
  /\ golang.classify (Some 3) busy = (golang.Returned ("Succeeded", "linux/arm64"), busy).
Proof. repeat split; vm_compute; reflexivity. Qed.

Lemma classify_total_witness :
  golang.heap busy !! 2 = Some prPending
  /\ exists statusLabel auxLabel,
       golang.classify (Some 2) busy = (golang.Returned (statusLabel, auxLabel), busy)
       /\ (statusLabel, auxLabel) = classify prPending
       /\ (v1.Conditions (v1.Status prPending) = [] ->
           statusLabel = if v1.IsPending prPending
                         then v1.PipelineRunReasonPending else "Unknown")
       /\ (v1.Params (v1.Spec prPending) = [] -> auxLabel = "").
Proof.
  split; [reflexivity|].
  exact (classify_total busy 2 prPending eq_refl).
Defined.

End Samples.

(** ** More on the exporter *)

Section ExporterCoverage.

Context `{Tekton : v1.Package}.

(** A listing that fails: [Collect] logs the error and sends nothing. *)
Lemma Collect_unlisted (c : PipelineRunCollector) (prList : v1.PipelineRunList)
    (e : errors.error) (w : Scrape) :
  tektonclientset.List (tektonClient c) "" = (prList, Some e) ->
  Collect c w
  = (tt, {| log.state := log.state w ++ [];
            log.lines := log.lines w ++
              [ {| log.format := "Collecting metrics from Kubernetes API...";
                   log.args := [] |};
                {| log.format := "Error listing PipelineRuns: %v";
                   log.args := [log.Err e] |} ] |}).
Proof.
  intros HList. unfold Collect. rewrite bind_run. unfold log.Println.
  rewrite write_run, HList. unfold log.Printf. rewrite write_run. simpl.
  by rewrite <- app_assoc, app_nil_r.
Qed.

Lemma stateSet_statusLabel (c : PipelineRunCollector) (pr : v1.PipelineRun) :
  map statusLabel (stateSet c pr) = map Some allPossibleStates.
Proof. reflexivity. Qed.

Lemma stateSet_rowIdentity (c : PipelineRunCollector) (pr : v1.PipelineRun) :
  map rowIdentity (stateSet c pr) = repeat (Some (identity pr)) 7.
Proof. reflexivity. Qed.

Lemma stateSet_length (c : PipelineRunCollector) (pr : v1.PipelineRun) :
  length (stateSet c pr) = 7.
Proof. reflexivity. Qed.

Lemma stateSets_length (c : PipelineRunCollector) (items : list v1.PipelineRun) :
  length (flat_map (stateSet c) items) = 7 * length items.
Proof.
  induction items as [|pr items IH]; [reflexivity|].
  cbn [flat_map]. rewrite length_app, stateSet_length, IH. cbn [length]. lia.
Qed.

(** Either way the listing goes, [Collect] only appends: to the channel
    some rows, to the log its opening line and one closing line. *)
Lemma Collect_cases (c : PipelineRunCollector) (w : Scrape) :
  exists rows closing,
    Collect c w
    = (tt, {| log.state := log.state w ++ rows;
              log.lines := log.lines w ++
                [ {| log.format := "Collecting metrics from Kubernetes API...";
                     log.args := [] |}; closing ] |})
    /\ (rows = [] \/ exists prList,
          tektonclientset.List (tektonClient c) "" = (prList, None)
          /\ rows = flat_map (stateSet c) (v1.Items prList)).
Proof.
  destruct (tektonclientset.List (tektonClient c) "") as [prList [e|]] eqn:HList.
  - eexists [], _. split; [exact (Collect_unlisted c prList e w HList) | by left].
  - eexists _, _. split; [exact (Collect_listed c prList w HList)|].
    right. by exists prList.
Qed.

(** X1: a scrape whose listing succeeds sends seven rows per listed item,
    item after item in listing order, and the status labels of the rows
    of each item are the known states in their order: a reason that is
    not a known state never becomes a status label. *)
Theorem scrape_status_column (c : PipelineRunCollector) (prList : v1.PipelineRunList) :
  tektonclientset.List (tektonClient c) "" = (prList, None) ->
  map statusLabel (scrape c)
  = flat_map (fun _ => map Some allPossibleStates) (v1.Items prList)
  /\ map rowIdentity (scrape c)
     = flat_map (fun pr => repeat (Some (identity pr)) 7) (v1.Items prList)
  /\ length (scrape c) = 7 * length (v1.Items prList).
Proof.
  intros HList. rewrite (scrape_listed _ _ HList).
  split; [|split; [|apply stateSets_length]].
  - induction (v1.Items prList) as [|pr items IH]; [reflexivity|].
    cbn [flat_map]. by rewrite map_app, IH, stateSet_statusLabel.
  - induction (v1.Items prList) as [|pr items IH]; [reflexivity|].
    cbn [flat_map]. by rewrite map_app, IH, stateSet_rowIdentity.
Qed.

(** X2: every row of a scrape is a gauge of a listed entity whose value is
    1 when its status label is the classified status of that entity and 0
    when it is not; no other value is sent. *)
Theorem scrape_values (c : PipelineRunCollector) (prList : v1.PipelineRunList) :
  tektonclientset.List (tektonClient c) "" = (prList, None) ->
  Forall (fun m => exists pr state,
            In pr (v1.Items prList)
            /\ rowIdentity m = Some (identity pr)
            /\ statusLabel m = Some state
            /\ prometheus.valueType m = prometheus.GaugeValue
            /\ ((state = getPipelineRunStatus pr /\ prometheus.value m = 1%float)
                \/ (state <> getPipelineRunStatus pr /\ prometheus.value m = 0%float)))
    (scrape c).
Proof.
  intros HList. rewrite (scrape_listed _ _ HList).
  apply List.Forall_forall. intros m Hm.
  apply in_flat_map in Hm. destruct Hm as (pr & Hpr & Hm).
  unfold stateSet in Hm. apply in_map_iff in Hm. destruct Hm as (state & <- & _).
  exists pr, state. repeat split; try assumption.
  unfold prometheus.MustNewConstMetric. cbn [prometheus.value].
  destruct (String.eqb state (getPipelineRunStatus pr)) eqn:E.
  - left. apply String.eqb_eq in E. by split.
  - right. apply String.eqb_neq in E. by split.
Qed.

(** X3: a listed entity has an active row, one with value 1 that carries
    its identity and its classified status, exactly when that status is
    one of the known states. *)
Theorem active_row_iff_known_state (c : PipelineRunCollector)
    (prList : v1.PipelineRunList) (pr : v1.PipelineRun) :
  tektonclientset.List (tektonClient c) "" = (prList, None) ->
  In pr (v1.Items prList) ->
  In [ Namespace pr; Name pr; getPipelineRunStatus pr; getBuildPlatformLabel pr ]
     (map prometheus.labelValues (active (scrape c)))
  <-> In (getPipelineRunStatus pr) allPossibleStates.
Proof.
  intros HList Hpr. rewrite (scrape_listed _ _ HList). unfold active.
  rewrite in_map_iff. split.
  - intros (m & Hlabels & Hm). apply filter_In in Hm. destruct Hm as [Hm _].
    apply in_flat_map in Hm. destruct Hm as (pr' & _ & Hm).
    unfold stateSet in Hm. apply in_map_iff in Hm. destruct Hm as (state & <- & Hstate).
    cbn in Hlabels. congruence.
  - intros Hknown.
    exists (prometheus.MustNewConstMetric
              (prStatusDesc c) prometheus.GaugeValue
              (if String.eqb (getPipelineRunStatus pr) (getPipelineRunStatus pr)
               then 1%float else 0%float)
              [ Namespace pr; Name pr; getPipelineRunStatus pr;
                getBuildPlatformLabel pr ]).
    split; [reflexivity|]. apply filter_In. split.
    + apply in_flat_map. exists pr. split; [exact Hpr|].
      unfold stateSet. apply in_map_iff. by exists (getPipelineRunStatus pr).
    + cbn. by rewrite String.eqb_refl.
Qed.

(** X4: the seven rows of an entity carry pairwise distinct label values
    exactly when the pending reason is none of the six literal states of
    the list; otherwise two rows of the entity share all their labels. *)
Theorem rows_distinct_iff_pending_reason_fresh (c : PipelineRunCollector)
    (pr : v1.PipelineRun) :
  tektonclientset.List (tektonClient c) "" = ({| v1.Items := [pr] |}, None) ->
  List.NoDup (map prometheus.labelValues (scrape c))
  <-> ~ In v1.PipelineRunReasonPending literalStates.
Proof.
  intros HList. rewrite (scrape_listed _ _ HList). cbn [v1.Items flat_map].
  rewrite app_nil_r, <- NoDup_ListNoDup.
  unfold stateSet, allPossibleStates, literalStates.
  cbn [map prometheus.labelValues prometheus.MustNewConstMetric In].
  rewrite !NoDup_cons, NoDup_nil, !elem_of_cons, !elem_of_nil.
  split.
  - intros H Hin. intuition congruence.
  - intros H. intuition congruence.
Qed.

(** X5: [Describe] announces one description, the one of the collector,
    and every row that [Collect] sends carries it; for a collector made
    by [NewPipelineRunCollector] this is the gauge
    tekton_kueue_pipelinerun_status with the four labels namespace, name,
    status and build_platform, and every row has one value for each. *)
Theorem Describe_announces_collected_rows (client : tektonclientset.Interface)
    (descs : list prometheus.Desc) :
  exec (Describe (NewPipelineRunCollector client)) descs
  = descs ++ [prStatusDesc (NewPipelineRunCollector client)]
  /\ prometheus.fqName (prStatusDesc (NewPipelineRunCollector client))
     = "tekton_kueue_pipelinerun_status"
  /\ prometheus.variableLabels (prStatusDesc (NewPipelineRunCollector client))
     = [ "namespace"; "name"; "status"; "build_platform" ]
  /\ Forall (fun m =>
               In (prometheus.desc m)
                  (exec (Describe (NewPipelineRunCollector client)) [])
               /\ prometheus.valueType m = prometheus.GaugeValue
               /\ length (prometheus.labelValues m)
                  = length (prometheus.variableLabels (prometheus.desc m)))
       (scrape (NewPipelineRunCollector client)).
Proof.
  repeat split. unfold scrape, exec.
  destruct (Collect_cases (NewPipelineRunCollector client) freshScrape)
    as (rows & closing & -> & [-> | (prList & _ & ->)]); [constructor|].
  cbn [snd log.state freshScrape app].
  apply List.Forall_forall. intros m Hm.
  apply in_flat_map in Hm. destruct Hm as (pr & _ & Hm).
  unfold stateSet in Hm. apply in_map_iff in Hm. destruct Hm as (state & <- & _).
  repeat split. by left.
Qed.

(** X6: whatever the listing answers, [Collect] keeps what the channel and
    the log already hold, in order, and logs exactly two lines: the
    opening line first, then either the listing error or the number of
    listed items. *)
Theorem Collect_only_appends (c : PipelineRunCollector) (w : Scrape) :
  exists rows closing,
    log.state (exec (Collect c) w) = log.state w ++ rows
    /\ log.lines (exec (Collect c) w)
       = log.lines w ++
         [ {| log.format := "Collecting metrics from Kubernetes API..."; log.args := [] |};
           closing ]
    /\ ((exists e, snd (tektonclientset.List (tektonClient c) "") = Some e
                   /\ rows = []
                   /\ closing = {| log.format := "Error listing PipelineRuns: %v";
                                   log.args := [log.Err e] |})
        \/ (snd (tektonclientset.List (tektonClient c) "") = None
            /\ length rows
               = 7 * length (v1.Items (fst (tektonclientset.List (tektonClient c) "")))
            /\ closing
               = {| log.format := "Collected metrics for %d PipelineRuns.";
                    log.args :=
                      [log.Int (length (v1.Items
                                  (fst (tektonclientset.List (tektonClient c) ""))))] |})).
Proof.
  unfold exec.
  destruct (tektonclientset.List (tektonClient c) "") as [prList [e|]] eqn:HList.
  - rewrite (Collect_unlisted c prList e w HList).
    eexists [], _. cbn [snd log.state log.lines fst].
    split; [reflexivity|]. split; [reflexivity|]. left. by exists e.
  - rewrite (Collect_listed c prList w HList).
    eexists _, _. cbn [snd log.state log.lines fst].
    split; [reflexivity|]. split; [reflexivity|]. right.
    split; [reflexivity|]. split; [|reflexivity].
    apply stateSets_length.
Qed.

End ExporterCoverage.

(** ** More on the two labels *)

Lemma append_cons (ch : Ascii.ascii) (a b : string) :
  String.append (String ch a) b = String ch (String.append a b).
Proof. reflexivity. Qed.

Lemma concat_two (sep a b : string) (rest : list string) :
  String.concat sep (a :: b :: rest)
  = String.append a (String.append sep (String.concat sep (b :: rest))).
Proof. reflexivity. Qed.

Lemma append_nil_l (b : string) : String.append "" b = b.
Proof. reflexivity. Qed.

Lemma comma_append (x : string) : String.append "," x = String comma x.
Proof. reflexivity. Qed.

(** A joined list of two or more elements holds the delimiter. *)
Lemma commaFree_joined (a x : string) :
  commaFree (String.append a (String.append "," x)) = false.
Proof.
  induction a as [|ch a IH].
  - reflexivity.
  - rewrite append_cons. cbn [commaFree]. rewrite IH. apply andb_false_r.
Qed.

(** Two joined strings that agree split at the same first delimiter. *)
Lemma joined_split (a b x y : string) :
  commaFree a = true -> commaFree b = true ->
  String.append a (String.append "," x) = String.append b (String.append "," y) ->
  a = b /\ x = y.
Proof.
  rewrite !comma_append.
  revert b. induction a as [|ch a IH]; intros [|ch' b] Ha Hb Heq;
    rewrite ?append_nil_l, ?append_cons in Heq.
  - injection Heq as ->. by split.
  - injection Heq as <- _.
    cbn [commaFree] in Hb. by rewrite Ascii.eqb_refl in Hb.
  - injection Heq as -> _.
    cbn [commaFree] in Ha. by rewrite Ascii.eqb_refl in Ha.
  - injection Heq as -> Heq.
    cbn [commaFree] in Ha, Hb.
    apply andb_true_iff in Ha as [_ Ha]. apply andb_true_iff in Hb as [_ Hb].
    destruct (IH b Ha Hb Heq) as [-> ->]. by split.
Qed.

(** Joining with "," loses nothing on non-empty lists of strings that
    hold no ",". *)
Lemma concat_comma_inj (l1 l2 : list string) :
  Forall (fun s => commaFree s = true) l1 ->
  Forall (fun s => commaFree s = true) l2 ->
  l1 <> [] -> l2 <> [] ->
  String.concat "," l1 = String.concat "," l2 ->
  l1 = l2.
Proof.
  intros H1. revert l2.
  induction H1 as [|a l1 Ha H1 IH]; intros l2 H2 Hne1 Hne2 Heq; [done|].
  destruct H2 as [|b l2 Hb H2]; [done|].
  destruct l1 as [|a' l1], l2 as [|b' l2].
  - cbn in Heq. by rewrite Heq.
  - rewrite concat_two in Heq. cbn [String.concat] in Heq.
    rewrite Heq, commaFree_joined in Ha. discriminate Ha.
  - rewrite concat_two in Heq. cbn [String.concat] in Heq.
    rewrite <- Heq, commaFree_joined in Hb. discriminate Hb.
  - rewrite !concat_two in Heq.
    destruct (joined_split _ _ _ _ Ha Hb Heq) as [-> Htail].
    f_equal. by apply IH.
Qed.

Lemma append_empty (a b : string) :
  String.append a b = "" -> a = "" /\ b = "".
Proof.
  destruct a as [|ch a].
  - rewrite append_nil_l. by intros ->.
  - rewrite append_cons. discriminate.
Qed.

(** The joined string is empty for no element and for one empty element
    only. *)
Lemma concat_comma_empty (l : list string) :
  String.concat "," l = "" <-> l = [] \/ l = [""].
Proof.
  split.
  - destruct l as [|a [|b l]]; intros Heq.
    + by left.
    + right. cbn in Heq. by rewrite Heq.
    + rewrite concat_two in Heq. apply append_empty in Heq as [_ Heq].
      discriminate Heq.
  - by intros [-> | ->].
Qed.

Section LabelCoverage.

Context `{Tekton : v1.Package}.

(** [getBuildPlatformLabel] reads nothing but the array of [platformParam]. *)
Lemma getBuildPlatformLabel_platformParam (pr : v1.PipelineRun) :
  getBuildPlatformLabel pr
  = match platformParam pr with
    | Some p => String.concat "," (v1.ArrayVal (v1.Value p))
    | None => ""
    end.
Proof.
  unfold getBuildPlatformLabel, platformParam.
  induction (v1.Params (v1.Spec pr)) as [|p params IH]; [reflexivity|].
  cbn [paramsLoop List.find].
  destruct (String.eqb (v1.Name p) "build-platforms"); [|exact IH].
  by rewrite Join_concat.
Qed.

(** X7: the build-platform label determines the platforms: two entities
    whose build-platforms arrays are non-empty and hold no "," inside a
    value have the same label only if they have the same array. *)
Theorem label_determines_platforms (pr1 pr2 : v1.PipelineRun) (p1 p2 : v1.Param) :
  platformParam pr1 = Some p1 ->
  platformParam pr2 = Some p2 ->
  Forall (fun s => commaFree s = true) (v1.ArrayVal (v1.Value p1)) ->
  Forall (fun s => commaFree s = true) (v1.ArrayVal (v1.Value p2)) ->
  v1.ArrayVal (v1.Value p1) <> [] ->
  v1.ArrayVal (v1.Value p2) <> [] ->
  getBuildPlatformLabel pr1 = getBuildPlatformLabel pr2 ->
  v1.ArrayVal (v1.Value p1) = v1.ArrayVal (v1.Value p2).
Proof.
  intros Hp1 Hp2 Hfree1 Hfree2 Hne1 Hne2.
  rewrite !getBuildPlatformLabel_platformParam, Hp1, Hp2.
  by apply concat_comma_inj.
Qed.

(** X8: the label is empty in three cases only: no parameter is named
    build-platforms, or the array of the first one is empty (as it is for
    a string value), or that array is one empty string. *)
Theorem empty_label_cases (pr : v1.PipelineRun) :
  getBuildPlatformLabel pr = ""
  <-> platformParam pr = None
      \/ exists p, platformParam pr = Some p
                   /\ (v1.ArrayVal (v1.Value p) = [] \/ v1.ArrayVal (v1.Value p) = [""]).
Proof.
  rewrite getBuildPlatformLabel_platformParam.
  destruct (platformParam pr) as [p|].
  - rewrite concat_comma_empty. split.
    + intros H. right. by exists p.
    + intros [H | (p' & [= <-] & H)]; [discriminate H | exact H].
  - split; [by left | reflexivity].
Qed.

Lemma conditionsLoop_filter (cs : list apis.Condition) :
  conditionsLoop
    (List.filter (fun c => String.eqb (apis.Type_ c) v1.PipelineRunReasonSucceeded) cs)
  = conditionsLoop cs.
Proof.
  induction cs as [|c cs IH]; [reflexivity|]. cbn [List.filter conditionsLoop].
  destruct (String.eqb (apis.Type_ c) v1.PipelineRunReasonSucceeded) eqn:E; [|exact IH].
  cbn [conditionsLoop]. by rewrite E.
Qed.

Lemma getPipelineRunStatus_loop (pr : v1.PipelineRun) :
  getPipelineRunStatus pr
  = match conditionsLoop (v1.Conditions (v1.Status pr)) with
    | Some reason => reason
    | None => if v1.IsPending pr then v1.PipelineRunReasonPending else "Unknown"
    end.
Proof. unfold getPipelineRunStatus. by destruct (v1.Conditions (v1.Status pr)). Qed.

(** X9: conditions of any other type than the completion type never
    influence the status: an entity with the same pending indicator and
    only the completion-type conditions, in the same order, has the same
    status. *)
Theorem other_condition_types_ignored (pr pr' : v1.PipelineRun) :
  v1.Conditions (v1.Status pr')
  = List.filter (fun c => String.eqb (apis.Type_ c) v1.PipelineRunReasonSucceeded)
      (v1.Conditions (v1.Status pr)) ->
  v1.IsPending pr' = v1.IsPending pr ->
  getPipelineRunStatus pr' = getPipelineRunStatus pr.
Proof.
  intros Hconditions Hpending.
  by rewrite !getPipelineRunStatus_loop, Hconditions, conditionsLoop_filter, Hpending.
Qed.

End LabelCoverage.

(** ** More on the controller *)

Section ControllerCoverage.

Context {Store : Type} `{Cel : cel.Metrics Store}.

(** X10: [Reconcile] always returns the empty result, so it never asks for
    a timed requeue, and it returns an error exactly when [Get] failed
    with an error other than not found, which is then the error it
    returns: a not-found answer is never reported as an error. *)
Theorem Reconcile_error_iff (r : PipelineRunMetricsReconciler) (req : ctrl.Request)
    (w : log.Logged Store) (e : errors.error) :
  fst (fst (Reconcile r req w)) = ctrl.Result0
  /\ (snd (fst (Reconcile r req w)) = Some e
      <-> snd (client.Get (Client r) (ctrl.NamespacedName req)) = Some e
          /\ errors.IsNotFound e = false).
Proof.
  destruct (client.Get (Client r) (ctrl.NamespacedName req)) as [pr [e0|]] eqn:HGet.
  - destruct (errors.IsNotFound e0) eqn:HNotFound.
    + rewrite (Reconcile_not_found _ _ _ _ _ HGet HNotFound). cbn [fst snd].
      split; [reflexivity|]. split; [discriminate|].
      intros [[= ->] Hfalse]. congruence.
    + unfold Reconcile. rewrite HGet, HNotFound. cbn [fst snd].
      split; [reflexivity|]. split.
      * intros [= ->]. by split.
      * by intros [-> _].
  - destruct (metav1.IsZero (metav1.DeletionTimestamp (v1.ObjectMeta pr))) eqn:HZero.
    + rewrite (Reconcile_update _ _ _ _ HGet HZero). cbn [fst snd].
      split; [reflexivity|]. split; [discriminate | by intros [? _]].
    + rewrite (Reconcile_terminating _ _ _ _ HGet HZero). cbn [fst snd].
      split; [reflexivity|]. split; [discriminate | by intros [? _]].
Qed.

End ControllerCoverage.

Section StoreCoverage.

Context `{Tekton : v1.Package}.

#[local] Existing Instance celStore.

(** X11: on the Store keyed by namespace and name, a reconciliation touches
    the record of its own identity only: when the object that [Get] reads
    has the requested namespace and name, the record of every other
    identity is after [Reconcile] what it was before, whichever branch
    runs. *)
Theorem Reconcile_frame (r : PipelineRunMetricsReconciler) (req : ctrl.Request)
    (w : log.Logged Store) (k : string * string) :
  (snd (client.Get (Client r) (ctrl.NamespacedName req)) = None ->
   identity (fst (client.Get (Client r) (ctrl.NamespacedName req)))
   = (nnNamespace (ctrl.NamespacedName req), nnName (ctrl.NamespacedName req))) ->
  k <> (nnNamespace (ctrl.NamespacedName req), nnName (ctrl.NamespacedName req)) ->
  log.state (exec (Reconcile r req) w) !! k = log.state w !! k.
Proof.
  intros Hidentity Hother. unfold exec.
  destruct (client.Get (Client r) (ctrl.NamespacedName req)) as [pr [e|]] eqn:HGet;
    cbn [fst snd] in Hidentity.
  - destruct (errors.IsNotFound e) eqn:HNotFound.
    + rewrite (Reconcile_not_found _ _ _ _ _ HGet HNotFound). cbn.
      by apply lookup_delete_ne.
    + unfold Reconcile. by rewrite HGet, HNotFound.
  - specialize (Hidentity eq_refl). unfold identity in Hidentity.
    destruct (metav1.IsZero (metav1.DeletionTimestamp (v1.ObjectMeta pr))) eqn:HZero.
    + rewrite (Reconcile_update _ _ _ _ HGet HZero). cbn.
      rewrite Hidentity. by apply lookup_insert_ne.
    + rewrite (Reconcile_terminating _ _ _ _ HGet HZero). cbn.
      rewrite Hidentity. by apply lookup_delete_ne.
Qed.

(** X12: on the Store keyed by namespace and name, observing an entity
    that is not terminating returns without error and leaves exactly one
    record for its identity, the freshly classified status and
    build-platform label, whatever record the Store held for it before;
    observing it again changes nothing. *)
Theorem live_observation_replaces_record (r : PipelineRunMetricsReconciler)
    (req : ctrl.Request) (pr : v1.PipelineRun) (w : log.Logged Store) :
  client.Get (Client r) (ctrl.NamespacedName req) = (pr, None) ->
  metav1.IsZero (metav1.DeletionTimestamp (v1.ObjectMeta pr)) = true ->
  fst (Reconcile r req w) = (ctrl.Result0, None)
  /\ log.state (exec (Reconcile r req) w) !! identity pr
     = Some {| status := getPipelineRunStatus pr;
               build_platform := getBuildPlatformLabel pr |}
  /\ exec (Reconcile r req) (exec (Reconcile r req) w) = exec (Reconcile r req) w.
Proof.
  intros HGet HLive. unfold exec.
  rewrite !(Reconcile_update _ _ _ _ HGet HLive). cbn.
  split; [reflexivity|]. split; [apply lookup_insert_eq|].
  by rewrite insert_insert_eq.
Qed.

End StoreCoverage.

(** ** KubeConfig *)

(** X13: [KubeConfig] fails only when both sources fail, and then with the
    error of the kubeconfig file; the in-cluster error is logged and never
    returned.  When the in-cluster configuration loads, it is returned and
    nothing is logged. *)
Theorem KubeConfig_error_iff {S} (m : Machine) (w : log.Logged S) (e : errors.error) :
  (snd (fst (KubeConfig m w)) = Some e
   <-> exists e0,
         snd (InClusterConfig m) = Some e0
         /\ log.lines (exec (KubeConfig m) w)
            = log.lines w ++
              [ {| log.format := "InClusterConfig failed: %v. Trying kubeconfig...";
                   log.args := [log.Err e0] |} ]
         /\ snd (BuildConfigFromFlags m ""
                   (if String.eqb (os.Getenv (environ m) "KUBECONFIG") ""
                    then ExpandEnv m "$HOME/.kube/config"
                    else os.Getenv (environ m) "KUBECONFIG")) = Some e)
  /\ (snd (InClusterConfig m) = None ->
      KubeConfig m w = ((fst (InClusterConfig m), None), w)).
Proof.
  unfold KubeConfig, exec. destruct (InClusterConfig m) as [config [e0|]]; cbn [fst snd].
  - rewrite bind_run. unfold log.Printf. rewrite write_run. cbn [fst snd].
    split; [|discriminate]. split.
    + intros He. by exists e0.
    + by intros (_ & _ & _ & He).
  - split; [|reflexivity]. split; [discriminate|]. by intros (? & ? & _).
Qed.

(** X14: when the in-cluster configuration does not load, a KUBECONFIG that
    is not set and one that is set to the empty string select the same
    file, the expansion of $HOME/.kube/config, and a non-empty KUBECONFIG
    is the path that is loaded, as it is. *)
Theorem KubeConfig_path {S} (m : Machine) (w : log.Logged S) (e0 : errors.error) :
  snd (InClusterConfig m) = Some e0 ->
  (environ m !! "KUBECONFIG" = None \/ environ m !! "KUBECONFIG" = Some "" ->
   fst (KubeConfig m w) = BuildConfigFromFlags m "" (ExpandEnv m "$HOME/.kube/config"))
  /\ (forall path, environ m !! "KUBECONFIG" = Some path -> path <> "" ->
        fst (KubeConfig m w) = BuildConfigFromFlags m "" path).
Proof.
  intros HInCluster. unfold KubeConfig.
  destruct (InClusterConfig m) as [config err]. cbn [snd] in HInCluster. subst err.
  rewrite bind_run. unfold log.Printf. rewrite write_run. cbn [fst]. unfold os.Getenv.
  split.
  - by intros [-> | ->].
  - intros path -> Hpath. apply String.eqb_neq in Hpath.
    change (default "" (Some path)) with path. by rewrite Hpath.
Qed.

(** ** The added properties on sample entities *)

Section CoverageSamples.

#[local] Existing Instance tekton.
#[local] Existing Instance celStore.

Lemma scrape_status_column_witness :
  tektonclientset.List
    (tektonClient (NewPipelineRunCollector (listing [prRunning; prPending]))) ""
  = ({| v1.Items := [prRunning; prPending] |}, None)
  /\ length (scrape (NewPipelineRunCollector (listing [prRunning; prPending])))
     = 7 * length (v1.Items {| v1.Items := [prRunning; prPending] |}).
Proof.
  split; [reflexivity|].
  exact (proj2 (proj2 (scrape_status_column
                         (NewPipelineRunCollector (listing [prRunning; prPending]))
                         {| v1.Items := [prRunning; prPending] |} eq_refl))).
Defined.

Lemma scrape_values_witness :
  tektonclientset.List
    (tektonClient (NewPipelineRunCollector (listing [prRunning; prPending]))) ""
  = ({| v1.Items := [prRunning; prPending] |}, None)
  /\ Forall (fun m => exists pr state,
               In pr (v1.Items {| v1.Items := [prRunning; prPending] |})
               /\ rowIdentity m = Some (identity pr)
               /\ statusLabel m = Some state
               /\ prometheus.valueType m = prometheus.GaugeValue
               /\ ((state = getPipelineRunStatus pr /\ prometheus.value m = 1%float)
                   \/ (state <> getPipelineRunStatus pr
                       /\ prometheus.value m = 0%float)))
       (scrape (NewPipelineRunCollector (listing [prRunning; prPending]))).
Proof.
  split; [reflexivity|].
  exact (scrape_values (NewPipelineRunCollector (listing [prRunning; prPending]))
           {| v1.Items := [prRunning; prPending] |} eq_refl).
Defined.

Lemma active_row_iff_known_state_witness :
  tektonclientset.List
    (tektonClient (NewPipelineRunCollector (listing [prCancelled; prSucceeded]))) ""
  = ({| v1.Items := [prCancelled; prSucceeded] |}, None)
  /\ In prSucceeded (v1.Items {| v1.Items := [prCancelled; prSucceeded] |})
  /\ In (getPipelineRunStatus prSucceeded) allPossibleStates
  /\ In [ Namespace prSucceeded; Name prSucceeded; getPipelineRunStatus prSucceeded;
          getBuildPlatformLabel prSucceeded ]
        (map prometheus.labelValues
           (active (scrape (NewPipelineRunCollector (listing [prCancelled; prSucceeded]))))).
Proof.
  split; [reflexivity|]. split; [right; left; reflexivity|].
  split; [left; reflexivity|].
  apply (proj2 (active_row_iff_known_state
                  (NewPipelineRunCollector (listing [prCancelled; prSucceeded]))
                  {| v1.Items := [prCancelled; prSucceeded] |} prSucceeded
                  eq_refl (or_intror (or_introl eq_refl)))).
  left; reflexivity.
Defined.

Lemma rows_distinct_iff_pending_reason_fresh_witness :
  tektonclientset.List (tektonClient (NewPipelineRunCollector (listing [prRunning]))) ""
  = ({| v1.Items := [prRunning] |}, None)
  /\ In v1.PipelineRunReasonPending literalStates
  /\ ~ List.NoDup (map prometheus.labelValues
                     (scrape (NewPipelineRunCollector (listing [prRunning])))).
Proof.
  split; [reflexivity|]. split; [right; right; right; left; reflexivity|].
  intros Hdistinct.
  apply (proj1 (rows_distinct_iff_pending_reason_fresh
                  (NewPipelineRunCollector (listing [prRunning])) prRunning eq_refl)
               Hdistinct).
  right; right; right; left; reflexivity.
Defined.

Lemma label_determines_platforms_witness :
  platformParam prRunning = Some platforms
  /\ platformParam prOtherTeam = Some platforms
  /\ getBuildPlatformLabel prRunning = getBuildPlatformLabel prOtherTeam
  /\ v1.ArrayVal (v1.Value platforms) = v1.ArrayVal (v1.Value platforms).
Proof.
  split; [reflexivity|]. split; [reflexivity|]. split; [reflexivity|].
  apply (label_determines_platforms prRunning prOtherTeam platforms platforms);
    first [reflexivity | discriminate | repeat constructor].
Defined.

Lemma other_condition_types_ignored_witness :
  v1.Conditions (v1.Status prFailed)
  = List.filter (fun c => String.eqb (apis.Type_ c) v1.PipelineRunReasonSucceeded)
      (v1.Conditions (v1.Status prReadyFailed))
  /\ v1.IsPending prFailed = v1.IsPending prReadyFailed
  /\ getPipelineRunStatus prFailed = getPipelineRunStatus prReadyFailed.
Proof.
  split; [reflexivity|]. split; [reflexivity|].
  exact (other_condition_types_ignored prReadyFailed prFailed eq_refl eq_refl).
Defined.

Lemma Reconcile_frame_witness :
  client.Get (serving {[ ("team-a", "build-5") := prArm ]})
    (ctrl.NamespacedName (request "team-a" "build-5"))
  = (prArm, None)
  /\ identity prArm = ("team-a", "build-5")
  /\ ("team-a", "build-1") <> ("team-a", "build-5")
  /\ log.state
       (exec (Reconcile {| Client := serving {[ ("team-a", "build-5") := prArm ]} |}
                (request "team-a" "build-5"))
             oneRunning)
     !! ("team-a", "build-1")
     = log.state oneRunning !! ("team-a", "build-1").
Proof.
  split; [reflexivity|]. split; [reflexivity|]. split; [discriminate|].
  apply (Reconcile_frame
           {| Client := serving {[ ("team-a", "build-5") := prArm ]} |}
           (request "team-a" "build-5") oneRunning ("team-a", "build-1"));
    [reflexivity | discriminate].
Defined.

Lemma live_observation_replaces_record_witness :
  client.Get (serving {[ ("team-a", "build-5") := prArm ]})
    (ctrl.NamespacedName (request "team-a" "build-5"))
  = (prArm, None)
  /\ metav1.IsZero (metav1.DeletionTimestamp (v1.ObjectMeta prArm)) = true
  /\ log.state
       (exec (Reconcile {| Client := serving {[ ("team-a", "build-5") := prArm ]} |}
                (request "team-a" "build-5"))
             oneRunning)
     !! identity prArm
     = Some {| status := "Succeeded"; build_platform := "linux/arm64" |}.
Proof.
  split; [reflexivity|]. split; [reflexivity|].
  exact (proj1 (proj2 (live_observation_replaces_record
                         {| Client := serving {[ ("team-a", "build-5") := prArm ]} |}
                         (request "team-a" "build-5") prArm oneRunning
                         eq_refl eq_refl))).
Defined.

Lemma KubeConfig_path_witness :
  snd (InClusterConfig workstation)
  = Some {| errors.Reason := errors.StatusReasonUnknown;
            errors.Message := "unable to load in-cluster configuration" |}
  /\ environ workstation !! "KUBECONFIG" = Some ""
  /\ fst (KubeConfig workstation quiet)
     = (Some {| rest.Host := "https://api.example:6443" |}, None).
Proof.
  split; [reflexivity|]. split; [reflexivity|].
  exact (proj1 (KubeConfig_path workstation quiet _ eq_refl) (or_intror eq_refl)).
Defined.

End CoverageSamples.
